(** * HyperRender: the generation request lifecycle

    A shallow embedding of the image-generation service
    ([GeminiService.checkApiKey], [GeminiService.generateImage]) and of the
    two handlers of the [App] component ([handleGenerate],
    [handleKeySelection]), followed by the properties of the request
    lifecycle.

    Conventions.
    - A JavaScript string is a [string]; each character is one code unit
      (code units above 255 are outside the model).
    - An optional property ([x?: T], or a value that may be [undefined]) is
      an [option].
    - A promise is represented by the way it settles: [Normal v] when it
      resolves with [v], [Throw e] when it rejects with [e].  The same type
      is the completion of a block of statements.
    - What is thrown, or what a promise rejects with, is any value: [null],
      [undefined], or a value that has properties.  A [message] property
      that is present is a string.
    - The host environment ([window.aistudio], the constructor of the
      provider's client, the remote provider, the clock, the text of the
      engine's own [TypeError]s) is a record [Host]; every call that
      leaves the program is written to a log. *)

From Stdlib Require Import String Ascii List Bool ZArith Lia.
From Stdlib Require Import Decimal DecimalString DecimalPos DecimalZ.
From ExtLib Require Import Structures.Monad Structures.MonadExc.
Import ListNotations.
Import MonadNotation.
Local Open Scope list_scope.
Local Open Scope string_scope.
Local Open Scope monad_scope.

Set Implicit Arguments.

(* ===================================================================== *)
(** ** JavaScript strings and truthiness                                  *)
(* ===================================================================== *)

(** [WhiteSpace] and [LineTerminator] code units below 256: TAB, LF, VT, FF,
    CR, SPACE and NO-BREAK SPACE. *)
Definition isWhiteSpace (c : ascii) : bool :=
  let n := nat_of_ascii c in
  (((9 <=? n) && (n <=? 13)) || (n =? 32) || (n =? 160))%nat.

Fixpoint trimStart (s : string) : string :=
  match s with
  | EmptyString => EmptyString
  | String c rest => if isWhiteSpace c then trimStart rest else s
  end.

Fixpoint trimEnd (s : string) : string :=
  match s with
  | EmptyString => EmptyString
  | String c rest =>
      match trimEnd rest with
      | EmptyString => if isWhiteSpace c then EmptyString else String c EmptyString
      | kept => String c kept
      end
  end.

(** [String.prototype.trim]. *)
Definition trim (s : string) : string := trimEnd (trimStart s).

(** [String.prototype.includes]: [searchString] occurs somewhere in [s]. *)
Fixpoint includes (s searchString : string) : bool :=
  String.prefix searchString s
  || match s with
     | EmptyString => false
     | String _ rest => includes rest searchString
     end.

(** Truthiness of a string: every string but the empty one. *)
Definition truthy (s : string) : bool :=
  match s with
  | EmptyString => false
  | String _ _ => true
  end.

(** Truthiness of a string that may be [undefined]. *)
Definition truthy_opt (v : option string) : bool :=
  match v with
  | Some s => truthy s
  | None => false
  end.

(** [v || fallback] on a string that may be [undefined]. *)
Definition or_else (v : option string) (fallback : string) : string :=
  match v with
  | Some s => if truthy s then s else fallback
  | None => fallback
  end.

(** [v === literal] where [v] may be [undefined]. *)
Definition strict_eq (v : option string) (literal : string) : bool :=
  match v with
  | Some s => String.eqb s literal
  | None => false
  end.

(** [v?.includes(searchString)] used as a condition: [undefined] is falsy. *)
Definition opt_includes (v : option string) (searchString : string) : bool :=
  match v with
  | Some s => includes s searchString
  | None => false
  end.

(* ===================================================================== *)
(** ** types.ts                                                           *)
(* ===================================================================== *)

Inductive ModelType : Type :=
| FLASH   (* 'gemini-2.5-flash-image' *)
| PRO.    (* 'gemini-3-pro-image-preview' *)

Definition ModelType_value (m : ModelType) : string :=
  match m with
  | FLASH => "gemini-2.5-flash-image"
  | PRO => "gemini-3-pro-image-preview"
  end.

Inductive AspectRatio : Type :=
| SQUARE | LANDSCAPE | PORTRAIT | WIDE | TALL.

Definition AspectRatio_value (a : AspectRatio) : string :=
  match a with
  | SQUARE => "1:1"
  | LANDSCAPE => "16:9"
  | PORTRAIT => "9:16"
  | WIDE => "4:3"
  | TALL => "3:4"
  end.

(** [model === ModelType.PRO]. *)
Definition isPRO (m : ModelType) : bool :=
  match m with
  | PRO => true
  | FLASH => false
  end.

Module GeneratedImage.
Record t : Type := mk
  { url : string;
    prompt : string;
    timestamp : Z;
    model : ModelType }.
End GeneratedImage.

(* ===================================================================== *)
(** ** Errors and completions                                             *)
(* ===================================================================== *)

(** A thrown value: [null], [undefined], or a value that has properties,
    given by its [name] and its [message] when it has them (an error
    object has both; a thrown string, number or plain object has
    neither). *)
Inductive JsError : Type :=
| Thrown (errorName : option string) (errorMessage : option string)
| ThrownNull
| ThrownUndefined.

(** The [name] and the [message] of a thrown value that has properties;
    [null] and [undefined] have none to give. *)
Definition name (e : JsError) : option string :=
  match e with
  | Thrown n _ => n
  | ThrownNull | ThrownUndefined => None
  end.

Definition message (e : JsError) : option string :=
  match e with
  | Thrown _ m => m
  | ThrownNull | ThrownUndefined => None
  end.

(** [new Error(msg)]. *)
Definition Error (msg : string) : JsError :=
  Thrown (Some "Error") (Some msg).

(** The error the engine throws when a property of [undefined] or of
    [null] is read. *)
Definition TypeError (msg : string) : JsError :=
  Thrown (Some "TypeError") (Some msg).

Inductive Completion (A : Type) : Type :=
| Normal (value : A)
| Throw (thrown : JsError).

Arguments Normal {A} value.
Arguments Throw {A} thrown.

(* ===================================================================== *)
(** ** The provider's request and response                                *)
(* ===================================================================== *)

Module ImageConfig.
Record t : Type := mk
  { aspectRatio : AspectRatio;
    imageSize : option string }.
End ImageConfig.

(** [{ model, contents: { parts: [{ text }] }, config: { imageConfig } }]. *)
Module GenerateContentParameters.
Record t : Type := mk
  { model : ModelType;
    text : string;
    imageConfig : ImageConfig.t }.
End GenerateContentParameters.

Record Blob : Type := mkBlob
  { data : option string;
    mimeType : option string }.

Record Part : Type := mkPart
  { inlineData : option Blob }.

Record Content : Type := mkContent
  { parts : option (list Part) }.

Record Candidate : Type := mkCandidate
  { content : option Content }.

Record GenerateContentResponse : Type := mkResponse
  { candidates : option (list Candidate) }.

(* ===================================================================== *)
(** ** The host environment                                               *)
(* ===================================================================== *)

(** [interface AIStudio]: how each of its two promises settles. *)
Record AIStudio : Type := mkAIStudio
  { hasSelectedApiKey : Completion bool;
    openSelectKey : Completion unit }.

Record Host : Type := mkHost
  { (** [window.aistudio], which may be [undefined] *)
    aistudio : option AIStudio;
    (** [new GoogleGenAI({ apiKey: process.env.API_KEY })]: the constructor
        returns the client, or throws (as it does when the environment
        holds no key) *)
    newGoogleGenAI : Completion unit;
    (** [ai.models.generateContent] of the client built from the
        environment's key *)
    generateContent : GenerateContentParameters.t -> Completion GenerateContentResponse;
    (** [Date.now()] *)
    now : Z;
    (** the message of the engine's [TypeError] for reading the named
        property of [undefined] *)
    readOfUndefined : string -> string;
    (** and for reading it of [null] *)
    readOfNull : string -> string }.

(** Reading [e.message] of a caught value: the engine throws when the
    value is [null] or [undefined]. *)
Definition readMessage (h : Host) (e : JsError) : Completion (option string) :=
  match e with
  | Thrown _ text => Normal text
  | ThrownNull => Throw (TypeError (readOfNull h "message"))
  | ThrownUndefined => Throw (TypeError (readOfUndefined h "message"))
  end.

(** What leaves the program. *)
Inductive Event : Type :=
| HasSelectedApiKey
| GenerateContent (request : GenerateContentParameters.t)
| OpenSelectKey
| ConsoleError (label : string) (e : JsError).

Definition isGenerateContent (ev : Event) : bool :=
  match ev with
  | GenerateContent _ => true
  | _ => false
  end.

(* ===================================================================== *)
(** ** The monad of the stateless service                                 *)
(* ===================================================================== *)

(** A service computation: the events it performed, in order, and how it
    completed. *)
Definition Svc (A : Type) : Type := (list Event * Completion A)%type.

Definition events {A} (m : Svc A) : list Event := fst m.
Definition outcome {A} (m : Svc A) : Completion A := snd m.

Definition Svc_bind {A B} (m : Svc A) (k : A -> Svc B) : Svc B :=
  match m with
  | (log, Normal a) => let (log', r) := k a in ((log ++ log')%list, r)
  | (log, Throw e) => (log, Throw e)
  end.

Definition Svc_catch {A} (m : Svc A) (handler : JsError -> Svc A) : Svc A :=
  match m with
  | (log, Normal a) => (log, Normal a)
  | (log, Throw e) => let (log', r) := handler e in ((log ++ log')%list, r)
  end.

#[global] Instance Monad_Svc : Monad Svc :=
  {| ret := fun A (a : A) => ([], Normal a);
     bind := @Svc_bind |}.

#[global] Instance MonadExc_Svc : MonadExc JsError Svc :=
  {| raise := fun A (e : JsError) => ([], Throw e);
     catch := @Svc_catch |}.

(** [await] on a host promise: the call is logged and the computation
    continues with the way the promise settled. *)
Definition await {A} (ev : Event) (answer : Completion A) : Svc A :=
  ([ev], answer).

(** A completion computed without any call. *)
Definition eval {A} (c : Completion A) : Svc A := ([], c).

(** [console.error(label, e)]. *)
Definition console_error (label : string) (e : JsError) : Svc unit :=
  ([ConsoleError label e], Normal tt).

(* ===================================================================== *)
(** ** services/geminiService.ts                                          *)
(* ===================================================================== *)

Definition checkApiKey (h : Host) (model : ModelType) : Svc unit :=
  if isPRO model then
    match aistudio h with
    | Some studio =>
        hasKey <- await HasSelectedApiKey (hasSelectedApiKey studio) ;;
        if negb hasKey then raise (Error "API_KEY_REQUIRED") else ret tt
    | None => ret tt
    end
  else ret tt.

(** The [config] object and the argument of [generateContent]. *)
Definition request (prompt : string) (model : ModelType) (aspectRatio : AspectRatio)
  : GenerateContentParameters.t :=
  {| GenerateContentParameters.model := model;
     GenerateContentParameters.text := prompt;
     GenerateContentParameters.imageConfig :=
       {| ImageConfig.aspectRatio := aspectRatio;
          ImageConfig.imageSize := if isPRO model then Some "4K" else None |} |}.

(** [part.inlineData && part.inlineData.data]: the blob and its payload
    when the condition is truthy. *)
Definition inlineImage (part : Part) : option (Blob * string) :=
  match inlineData part with
  | Some blob =>
      match data blob with
      | Some payload => if truthy payload then Some (blob, payload) else None
      | None => None
      end
  | None => None
  end.

(** The [for ... of] loop with its [return]: the URI of the first part that
    carries inline data, or [None] when the loop runs to its end. *)
Fixpoint scanParts (ps : list Part) : option string :=
  match ps with
  | [] => None
  | part :: rest =>
      match inlineImage part with
      | Some (blob, base64Data) =>
          let mimeType := or_else (mimeType blob) "image/png" in
          Some ("data:" ++ mimeType ++ ";base64," ++ base64Data)
      | None => scanParts rest
      end
  end.

(** [response.candidates && response.candidates[0].content.parts]: the
    list to iterate over when the condition is truthy, [None] when it is
    falsy, and a [TypeError] when [candidates[0]] or its [content] is
    [undefined]. *)
Definition firstCandidateParts (h : Host) (response : GenerateContentResponse)
  : Completion (option (list Part)) :=
  match candidates response with
  | None => Normal None
  | Some [] => Throw (TypeError (readOfUndefined h "content"))
  | Some (first :: _) =>
      match content first with
      | None => Throw (TypeError (readOfUndefined h "parts"))
      | Some c => Normal (parts c)
      end
  end.

Definition generateImage (h : Host) (prompt : string) (model : ModelType)
    (aspectRatio : AspectRatio) : Svc string :=
  checkApiKey h model ;;
  eval (newGoogleGenAI h) ;;
  let req := request prompt model aspectRatio in
  catch
    (response <- await (GenerateContent req) (generateContent h req) ;;
     iterable <- eval (firstCandidateParts h response) ;;
     match match iterable with
           | Some ps => scanParts ps
           | None => None
           end with
     | Some uri => ret uri
     | None => raise (Error "No image data found in response")
     end)
    (fun error =>
       console_error "Gemini Image Generation Error:" error ;;
       text <- eval (readMessage h error) ;;
       if opt_includes text "Requested entity was not found" && isPRO model
       then raise (Error "API_KEY_INVALID")
       else raise error).

(* ===================================================================== *)
(** ** The state of the [App] component                                   *)
(* ===================================================================== *)

(** The seven [useState] cells. *)
Record SessionState : Type := mkState
  { prompt : string;
    model : ModelType;
    aspectRatio : AspectRatio;
    isLoading : bool;
    error : option string;
    currentImage : option GeneratedImage.t;
    keySelectionNeeded : bool }.

Definition with_isLoading (b : bool) (st : SessionState) : SessionState :=
  {| prompt := prompt st; model := model st; aspectRatio := aspectRatio st;
     isLoading := b;
     error := error st; currentImage := currentImage st;
     keySelectionNeeded := keySelectionNeeded st |}.

Definition with_error (e : option string) (st : SessionState) : SessionState :=
  {| prompt := prompt st; model := model st; aspectRatio := aspectRatio st;
     isLoading := isLoading st;
     error := e;
     currentImage := currentImage st;
     keySelectionNeeded := keySelectionNeeded st |}.

Definition with_currentImage (i : option GeneratedImage.t) (st : SessionState)
  : SessionState :=
  {| prompt := prompt st; model := model st; aspectRatio := aspectRatio st;
     isLoading := isLoading st; error := error st;
     currentImage := i;
     keySelectionNeeded := keySelectionNeeded st |}.

Definition with_keySelectionNeeded (b : bool) (st : SessionState) : SessionState :=
  {| prompt := prompt st; model := model st; aspectRatio := aspectRatio st;
     isLoading := isLoading st; error := error st;
     currentImage := currentImage st;
     keySelectionNeeded := b |}.

(** The component together with what an observer has seen of it: each event
    is recorded with the state the component had when it happened, which is
    the state on display while the handler is suspended on that call. *)
Record World : Type := mkWorld
  { ui : SessionState;
    observed : list (Event * SessionState) }.

(** A handler: a world transformer that completes normally or throws. *)
Definition App (A : Type) : Type := World -> (Completion A * World)%type.

Definition App_bind {A B} (m : App A) (k : A -> App B) : App B :=
  fun w =>
    match m w with
    | (Normal a, w') => k a w'
    | (Throw e, w') => (Throw e, w')
    end.

Definition App_catch {A} (m : App A) (handler : JsError -> App A) : App A :=
  fun w =>
    match m w with
    | (Normal a, w') => (Normal a, w')
    | (Throw e, w') => handler e w'
    end.

(** [try { body } finally { cleanup }]: the cleanup runs on both exits; the
    completion of the body is kept unless the cleanup throws. *)
Definition App_finally {A} (body : App A) (cleanup : App unit) : App A :=
  fun w =>
    let (r, w') := body w in
    match cleanup w' with
    | (Normal _, w'') => (r, w'')
    | (Throw e, w'') => (Throw e, w'')
    end.

#[global] Instance Monad_App : Monad App :=
  {| ret := fun A (a : A) (w : World) => (Normal a, w);
     bind := @App_bind |}.

#[global] Instance MonadExc_App : MonadExc JsError App :=
  {| raise := fun A (e : JsError) (w : World) => (Throw e, w);
     catch := @App_catch |}.

(** A completion computed without touching the component. *)
Definition evaluate {A} (c : Completion A) : App A :=
  fun w => (c, w).

(** The values the handler's closure reads. *)
Definition current : App SessionState :=
  fun w => (Normal (ui w), w).

Definition update (f : SessionState -> SessionState) : App unit :=
  fun w => (Normal tt, {| ui := f (ui w); observed := observed w |}).

Definition setIsLoading (b : bool) : App unit := update (with_isLoading b).
Definition setError (e : option string) : App unit := update (with_error e).
Definition setCurrentImage (i : option GeneratedImage.t) : App unit :=
  update (with_currentImage i).
Definition setKeySelectionNeeded (b : bool) : App unit :=
  update (with_keySelectionNeeded b).

(** Running a service computation from a handler: its events are observed
    against the current state, which the service cannot change. *)
Definition perform {A} (m : Svc A) : App A :=
  fun w =>
    (outcome m,
     {| ui := ui w;
        observed := (observed w ++ map (fun ev => (ev, ui w)) (events m))%list |}).

(* ===================================================================== *)
(** ** App.tsx: the two handlers                                          *)
(* ===================================================================== *)

(** [err.message === "API_KEY_REQUIRED" || err.message === "API_KEY_INVALID"],
    once [err.message] has been read. *)
Definition isKeyMessage (text : option string) : bool :=
  strict_eq text "API_KEY_REQUIRED"
  || strict_eq text "API_KEY_INVALID".

(** The deferred scroll of the result into view touches the document only
    and is left out. *)
Definition handleGenerate (h : Host) : App unit :=
  st <- current ;;
  if negb (truthy (trim (prompt st))) then ret tt
  else
    setIsLoading true ;;
    setError None ;;
    setKeySelectionNeeded false ;;
    App_finally
      (catch
         (imageUrl <- perform (generateImage h (prompt st) (model st) (aspectRatio st)) ;;
          let newImage :=
            {| GeneratedImage.url := imageUrl;
               GeneratedImage.prompt := prompt st;
               GeneratedImage.timestamp := now h;
               GeneratedImage.model := model st |} in
          setCurrentImage (Some newImage))
         (fun err =>
            text <- evaluate (readMessage h err) ;;
            if isKeyMessage text
            then setKeySelectionNeeded true
            else setError
                   (Some (or_else text
                            "An unexpected error occurred while generating the image."))))
      (setIsLoading false).

Definition handleKeySelection (h : Host) : App unit :=
  catch
    (match aistudio h with
     | Some studio =>
         perform (await OpenSelectKey (openSelectKey studio)) ;;
         setKeySelectionNeeded false
     | None => setError (Some "AI Studio environment not detected.")
     end)
    (fun e =>
       perform (console_error "Key selection failed" e) ;;
       setError (Some "Failed to select API key. Please try again.")).

(* ===================================================================== *)
(** ** The two functions cut into their phases                            *)
(* ===================================================================== *)

(** The [catch] clause of [generateImage]. *)
Definition onProviderError (h : Host) (model : ModelType) (error : JsError)
  : Svc string :=
  console_error "Gemini Image Generation Error:" error ;;
  text <- eval (readMessage h error) ;;
  if opt_includes text "Requested entity was not found" && isPRO model
  then raise (Error "API_KEY_INVALID")
  else raise error.

Arguments onProviderError : simpl never.

(** Everything [generateImage] does once [checkApiKey] has returned. *)
Definition afterKeyCheck (h : Host) (prompt : string) (model : ModelType)
    (aspectRatio : AspectRatio) : Svc string :=
  eval (newGoogleGenAI h) ;;
  let req := request prompt model aspectRatio in
  catch
    (response <- await (GenerateContent req) (generateContent h req) ;;
     iterable <- eval (firstCandidateParts h response) ;;
     match match iterable with
           | Some ps => scanParts ps
           | None => None
           end with
     | Some uri => ret uri
     | None => raise (Error "No image data found in response")
     end)
    (onProviderError h model).

Arguments afterKeyCheck : simpl never.
Arguments generateImage : simpl never.

(** The state a generation attempt puts on display before its first call:
    the three synchronous setters of [handleGenerate]. *)
Definition started (st : SessionState) : SessionState :=
  with_keySelectionNeeded false (with_error None (with_isLoading true st)).

(** The state [handleGenerate] leaves, by how [generateImage] completed:
    the rest of the [try] block or the [catch] clause, then [finally]. *)
Definition settled (h : Host) (st : SessionState) (r : Completion string)
  : SessionState :=
  with_isLoading false
    match r with
    | Normal imageUrl =>
        with_currentImage
          (Some {| GeneratedImage.url := imageUrl;
                   GeneratedImage.prompt := prompt st;
                   GeneratedImage.timestamp := now h;
                   GeneratedImage.model := model st |})
          (started st)
    | Throw err =>
        match readMessage h err with
        | Normal text =>
            if isKeyMessage text
            then with_keySelectionNeeded true (started st)
            else with_error
                   (Some (or_else text
                            "An unexpected error occurred while generating the image."))
                   (started st)
        | Throw _ => started st
        end
    end.

(** How [handleGenerate] completes, by how [generateImage] completed: it
    throws only what reading the message of the caught value throws. *)
Definition completed (h : Host) (r : Completion string) : Completion unit :=
  match r with
  | Normal _ => Normal tt
  | Throw err =>
      match readMessage h err with
      | Normal _ => Normal tt
      | Throw te => Throw te
      end
  end.

(** What the catch clause of [generateImage] throws onwards for a value it
    caught. *)
Definition rethrown (h : Host) (model : ModelType) (caught : JsError)
  : Completion string :=
  match readMessage h caught with
  | Throw te => Throw te
  | Normal text =>
      if opt_includes text "Requested entity was not found" && isPRO model
      then Throw (Error "API_KEY_INVALID")
      else Throw caught
  end.

(* ===================================================================== *)
(** ** Concrete hosts                                                     *)
(* ===================================================================== *)

(** The text V8 gives to the [TypeError] for reading a property of
    [undefined], and of [null]. *)
Definition v8_readOfUndefined (property : string) : string :=
  "Cannot read properties of undefined (reading '" ++ property ++ "')".

Definition v8_readOfNull (property : string) : string :=
  "Cannot read properties of null (reading '" ++ property ++ "')".

(** A host whose provider gives the same answer to every request. *)
Definition hostOf (studio : option AIStudio)
    (answer : Completion GenerateContentResponse) : Host :=
  {| aistudio := studio;
     newGoogleGenAI := Normal tt;
     generateContent := fun _ => answer;
     now := 1700000000000;
     readOfUndefined := v8_readOfUndefined;
     readOfNull := v8_readOfNull |}.

(** A host in whose environment no key is configured: the constructor of
    the client throws. *)
Definition hostWithoutKey (studio : option AIStudio)
    (answer : Completion GenerateContentResponse) : Host :=
  {| aistudio := studio;
     newGoogleGenAI := Throw (Error "An API Key must be set when running in a browser");
     generateContent := fun _ => answer;
     now := 1700000000000;
     readOfUndefined := v8_readOfUndefined;
     readOfNull := v8_readOfNull |}.

(** An oracle that rejects with no reason at all. *)
Definition oracleRejectsUndefined : AIStudio :=
  mkAIStudio (Throw ThrownUndefined) (Normal tt).

(** A response with one candidate whose content has the given parts. *)
Definition responseOf (ps : list Part) : GenerateContentResponse :=
  mkResponse (Some [mkCandidate (Some (mkContent (Some ps)))]).

Definition textPart : Part := mkPart None.
Definition pngPart : Part :=
  mkPart (Some (mkBlob (Some "iVBORw0KGgo=") (Some "image/png"))).
Definition untypedPart : Part :=
  mkPart (Some (mkBlob (Some "R0lGODlh") None)).

(** A candidate stopped before it produced any content, and a response
    that has no candidate at all. *)
Definition blockedResponse : GenerateContentResponse :=
  mkResponse (Some [mkCandidate None]).
Definition emptyResponse : GenerateContentResponse :=
  mkResponse (Some []).

Definition keySelected : AIStudio := mkAIStudio (Normal true) (Normal tt).
Definition noKeySelected : AIStudio := mkAIStudio (Normal false) (Normal tt).
Definition selectorFails : AIStudio :=
  mkAIStudio (Normal false) (Throw (Error "dialog dismissed")).

Definition entityNotFound : JsError :=
  Error "404 NOT_FOUND: Requested entity was not found.".

(** A component at rest showing an earlier image, an earlier error and the
    key panel. *)
Definition earlierImage : GeneratedImage.t :=
  {| GeneratedImage.url := "data:image/png;base64,AAAA";
     GeneratedImage.prompt := "a blue sphere";
     GeneratedImage.timestamp := 1699999999000;
     GeneratedImage.model := FLASH |}.

Definition atRest (p : string) (m : ModelType) : World :=
  {| ui := {| prompt := p; model := m; aspectRatio := SQUARE;
              isLoading := false;
              error := Some "earlier failure";
              currentImage := Some earlierImage;
              keySelectionNeeded := true |};
     observed := [] |}.

(** The four situations the properties are tried on: an image comes back;
    the high-fidelity model without a selected key; a selected key the
    provider no longer knows; a response with zero parts. *)
Definition scenarioA : Host :=
  hostOf None (Normal (responseOf [textPart; untypedPart; pngPart])).
Definition scenarioB : Host :=
  hostOf (Some noKeySelected) (Normal (responseOf [pngPart])).
Definition scenarioC : Host :=
  hostOf (Some keySelected) (Throw entityNotFound).

(* ===================================================================== *)
(** ** App.tsx: the form, the download and what is rendered               *)
(* ===================================================================== *)

(** The completion of the [try] block of [generateImage], before its
    [catch] clause sees it. *)
Definition tryBlock (h : Host) (prompt : string) (model : ModelType)
    (aspectRatio : AspectRatio) : Completion string :=
  match generateContent h (request prompt model aspectRatio) with
  | Throw e => Throw e
  | Normal response =>
      match firstCandidateParts h response with
      | Throw te => Throw te
      | Normal iterable =>
          match match iterable with
                | Some ps => scanParts ps
                | None => None
                end with
          | Some uri => Normal uri
          | None => Throw (Error "No image data found in response")
          end
      end
  end.

Definition isHasSelectedApiKey (ev : Event) : bool :=
  match ev with
  | HasSelectedApiKey => true
  | _ => false
  end.

Definition isConsoleError (ev : Event) : bool :=
  match ev with
  | ConsoleError _ _ => true
  | _ => false
  end.

Definition with_prompt (p : string) (st : SessionState) : SessionState :=
  {| prompt := p;
     model := model st; aspectRatio := aspectRatio st;
     isLoading := isLoading st; error := error st;
     currentImage := currentImage st;
     keySelectionNeeded := keySelectionNeeded st |}.

Definition with_model (m : ModelType) (st : SessionState) : SessionState :=
  {| prompt := prompt st;
     model := m;
     aspectRatio := aspectRatio st;
     isLoading := isLoading st; error := error st;
     currentImage := currentImage st;
     keySelectionNeeded := keySelectionNeeded st |}.

Definition with_aspectRatio (a : AspectRatio) (st : SessionState) : SessionState :=
  {| prompt := prompt st; model := model st;
     aspectRatio := a;
     isLoading := isLoading st; error := error st;
     currentImage := currentImage st;
     keySelectionNeeded := keySelectionNeeded st |}.

(** The [onChange] handlers of the textarea and of the two selects. *)
Definition setPrompt (value : string) : App unit := update (with_prompt value).
Definition setModel (value : ModelType) : App unit := update (with_model value).
Definition setAspectRatio (value : AspectRatio) : App unit :=
  update (with_aspectRatio value).

(** The initial values of the seven cells.  [DEFAULT_PROMPT] has a code
    unit above 255 and is taken as a parameter. *)
Definition initialState (DEFAULT_PROMPT : string) : SessionState :=
  {| prompt := DEFAULT_PROMPT;
     model := FLASH;
     aspectRatio := SQUARE;
     isLoading := false;
     error := None;
     currentImage := None;
     keySelectionNeeded := false |}.

(** What the user can do to the component; a click brings the host as it
    answers during that handler. *)
Inductive Action : Type :=
| TypePrompt (value : string)
| SelectModel (value : ModelType)
| SelectAspectRatio (value : AspectRatio)
| ClickGenerate (h : Host)
| ClickSelectKey (h : Host).

Definition react (a : Action) : App unit :=
  match a with
  | TypePrompt value => setPrompt value
  | SelectModel value => setModel value
  | SelectAspectRatio value => setAspectRatio value
  | ClickGenerate h => handleGenerate h
  | ClickSelectKey h => handleKeySelection h
  end.

(** A session in which every handler has completed before the next action
    is taken. *)
Fixpoint session (actions : list Action) (w : World) : World :=
  match actions with
  | [] => w
  | a :: rest => session rest (snd (react a w))
  end.

(** The template literal on a timestamp: the decimal digits of an integer
    (integers of magnitude below 10^21, where no exponent is printed). *)
Definition numberToString (n : Z) : string :=
  NilZero.string_of_int (Z.to_int n).

(** The document, as far as [handleDownload] touches it: the children of
    [document.body], the anchors that were clicked, and a counter that
    gives each created element its identity. *)
Record Node : Type := mkNode
  { nodeId : nat;
    tagName : string;
    href : string;
    download : string }.

Record Document : Type := mkDocument
  { nextId : nat;
    body : list Node;
    clicked : list Node }.

Definition createElement (tag : string) (d : Document) : Node * Document :=
  ({| nodeId := nextId d; tagName := tag; href := ""; download := "" |},
   {| nextId := S (nextId d); body := body d; clicked := clicked d |}).

Definition set_href (value : string) (n : Node) : Node :=
  {| nodeId := nodeId n; tagName := tagName n; href := value; download := download n |}.

Definition set_download (value : string) (n : Node) : Node :=
  {| nodeId := nodeId n; tagName := tagName n; href := href n; download := value |}.

Definition appendChild (n : Node) (d : Document) : Document :=
  {| nextId := nextId d; body := (body d ++ [n])%list; clicked := clicked d |}.

Definition click (n : Node) (d : Document) : Document :=
  {| nextId := nextId d; body := body d; clicked := (clicked d ++ [n])%list |}.

(** [removeChild] takes out the child that is this very node. *)
Definition removeChild (n : Node) (d : Document) : Document :=
  {| nextId := nextId d;
     body := filter (fun c => negb (nodeId c =? nodeId n)%nat) (body d);
     clicked := clicked d |}.

Definition handleDownload (st : SessionState) (d : Document) : Document :=
  match currentImage st with
  | None => d
  | Some image =>
      let (created, d1) := createElement "a" d in
      let link := set_href (GeneratedImage.url image) created in
      let link :=
        set_download
          ("hyper-render-" ++ numberToString (GeneratedImage.timestamp image) ++ ".png")
          link in
      let d2 := appendChild link d1 in
      let d3 := click link d2 in
      removeChild link d3
  end.

(** components/UIComponents.tsx: [Button]. *)
Inductive Variant : Type := primary | secondary | danger.

Inductive ButtonChild : Type :=
| Loader2
| Icon (component : string)
| Text (s : string).

Record ButtonProps : Type := mkButtonProps
  { children : list ButtonChild;
    variant : option Variant;
    loading : option bool;        (* the [isLoading] prop *)
    className : option string;
    disabled : option bool }.

Record ButtonView : Type := mkButtonView
  { classAttr : string;
    disabledAttr : bool;
    inner : list ButtonChild }.

Definition baseStyles : string :=
  "inline-flex items-center justify-center rounded-lg px-4 py-2 font-medium transition-all focus:outline-none focus:ring-2 focus:ring-offset-2 disabled:opacity-50 disabled:cursor-not-allowed".

Definition variants (v : Variant) : string :=
  match v with
  | primary => "bg-primary-600 hover:bg-primary-500 text-white focus:ring-primary-500 ring-offset-slate-900 shadow-lg shadow-primary-900/20"
  | secondary => "bg-slate-800 hover:bg-slate-700 text-slate-200 focus:ring-slate-500 ring-offset-slate-900 border border-slate-700"
  | danger => "bg-red-600 hover:bg-red-500 text-white focus:ring-red-500 ring-offset-slate-900"
  end.

(** Truthiness of a boolean prop that may be [undefined]. *)
Definition truthy_flag (v : option bool) : bool :=
  match v with
  | Some b => b
  | None => false
  end.

Definition Button (props : ButtonProps) : ButtonView :=
  let variant := match variant props with Some v => v | None => primary end in
  let className := match className props with Some c => c | None => "" end in
  {| classAttr := baseStyles ++ " " ++ variants variant ++ " " ++ className;
     disabledAttr := truthy_flag (disabled props) || truthy_flag (loading props);
     inner :=
       ((if truthy_flag (loading props) then [Loader2] else [])
          ++ children props)%list |}.

(** The output column of [App]. *)
Inductive OutputPane : Type :=
| ShowImage (src : string) (downloadButton : ButtonView)
| CreatingMasterpiece
| ReadyToImagine.

(** What [App] renders, reduced to the nodes whose presence or content
    depends on the state: the generate button, the error panel with its
    text, the key panel with its button, and the output column. *)
Record View : Type := mkView
  { generateButton : ButtonView;
    errorPanel : option string;
    keyPanel : option ButtonView;
    outputPane : OutputPane }.

Definition render (st : SessionState) : View :=
  {| generateButton :=
       Button {| children :=
                   [Text (if isLoading st then "Rendering..." else "Generate Image")];
                 variant := None;
                 loading := Some (isLoading st);
                 className := Some "w-full h-12 text-lg";
                 disabled := None |};
     errorPanel := if truthy_opt (error st) then error st else None;
     keyPanel :=
       if keySelectionNeeded st
       then Some (Button {| children := [Text "Select API Key"];
                            variant := Some secondary;
                            loading := None;
                            className := Some "w-full text-xs";
                            disabled := None |})
       else None;
     outputPane :=
       match currentImage st with
       | Some image =>
           ShowImage (GeneratedImage.url image)
             (Button {| children := [Icon "Download"];
                        variant := None;
                        loading := None;
                        className := Some "!p-2 !rounded-full";
                        disabled := None |})
       | None => if isLoading st then CreatingMasterpiece else ReadyToImagine
       end |}.

(** What holds of the state whenever no handler is running. *)
Definition wellFormedImage (image : GeneratedImage.t) : Prop :=
  (exists mediaType payload,
      mediaType <> "" /\ payload <> ""
      /\ GeneratedImage.url image = "data:" ++ mediaType ++ ";base64," ++ payload)
  /\ trim (GeneratedImage.prompt image) <> "".

Definition atRestInvariant (st : SessionState) : Prop :=
  isLoading st = false
  /\ error st <> Some ""
  /\ forall image, currentImage st = Some image -> wellFormedImage image.

(** What holds of everything an observer has seen: the provider was only
    ever called with the loading flag up, for the prompt, the model and
    the aspect ratio then in the form, and never for a blank prompt. *)
Definition providerCallsInvariant (w : World) : Prop :=
  forall req st,
    In (GenerateContent req, st) (observed w) ->
    isLoading st = true
    /\ req = request (prompt st) (model st) (aspectRatio st)
    /\ trim (prompt st) <> "".

(** A document nothing has been done to yet. *)
Definition freshDocument : Document :=
  {| nextId := 0; body := []; clicked := [] |}.

(** More situations: an oracle that rejects, a host where the key is
    selected and an image comes back, a component at rest with the same
    form and image as [atRest] but no stale flag, a later image, and a
    document with two nodes in its body. *)
Definition oracleFails : AIStudio :=
  mkAIStudio (Throw (Error "aistudio bridge unavailable")) (Normal tt).

(** An oracle that rejects with an error whose message is one of the two
    key messages. *)
Definition oracleSaysInvalid : AIStudio :=
  mkAIStudio (Throw (Error "API_KEY_INVALID")) (Normal tt).

Definition scenarioE : Host :=
  hostOf (Some keySelected) (Normal (responseOf [pngPart])).

Definition calm (p : string) (m : ModelType) : World :=
  {| ui := {| prompt := p; model := m; aspectRatio := SQUARE;
              isLoading := false;
              error := None;
              currentImage := Some earlierImage;
              keySelectionNeeded := false |};
     observed := [] |}.

Definition laterImage : GeneratedImage.t :=
  {| GeneratedImage.url := "data:image/png;base64,BBBB";
     GeneratedImage.prompt := "a green cone";
     GeneratedImage.timestamp := 1700000000123;
     GeneratedImage.model := PRO |}.

Definition sampleDocument : Document :=
  {| nextId := 3;
     body := [ {| nodeId := 0; tagName := "div"; href := ""; download := "" |};
               {| nodeId := 2; tagName := "script"; href := ""; download := "" |} ];
     clicked := [] |}.

(* ===================================================================== *)
(** ** Strings: what [includes] and [trim] decide                         *)
(* ===================================================================== *)

Lemma prefix_iff (a s : string) :
  String.prefix a s = true <-> exists b, s = a ++ b.
Proof.
  revert s; induction a as [|c a IH]; intros s.
  - destruct s; simpl; split; eauto.
  - destruct s as [|d s]; simpl.
    + split; [discriminate | intros [b Hb]; discriminate].
    + destruct (ascii_dec c d) as [->|Hcd].
      * rewrite IH. split; intros [b Hb]; exists b.
        -- now rewrite Hb.
        -- now inversion Hb.
      * split; [discriminate | intros [b Hb]; congruence].
Qed.

(** [includes] is the substring test. *)
Lemma includes_iff (s t : string) :
  includes s t = true <-> exists a b, s = a ++ t ++ b.
Proof.
  induction s as [|c s IH]; cbn [includes].
  - rewrite orb_false_r, prefix_iff. split.
    + intros [b Hb]. now exists "", b.
    + intros [a [b Hab]]. destruct a; [now exists b | discriminate].
  - rewrite orb_true_iff, prefix_iff, IH. split.
    + intros [[b Hb] | [a [b Hab]]].
      * now exists "", b.
      * exists (String c a), b. simpl. now rewrite Hab.
    + intros [a [b Hab]]. destruct a as [|d a]; cbn [append] in Hab.
      * left. now exists b.
      * right. inversion Hab. now exists a, b.
Qed.

Lemma trimStart_blank_iff (s : string) :
  trimStart s = "" <-> forallb isWhiteSpace (list_ascii_of_string s) = true.
Proof.
  induction s as [|c s IH]; cbn; [tauto|].
  destruct (isWhiteSpace c); cbn; [exact IH|]. split; discriminate.
Qed.

Lemma trimStart_head (s : string) c rest :
  trimStart s = String c rest -> isWhiteSpace c = false.
Proof.
  induction s as [|d s IH]; cbn; [discriminate|].
  destruct (isWhiteSpace d) eqn:Hd; [exact IH|]. now intros [= <- _].
Qed.

Lemma trimEnd_keeps_head c rest :
  isWhiteSpace c = false -> trimEnd (String c rest) <> "".
Proof.
  intros Hc. cbn. rewrite Hc. now destruct (trimEnd rest).
Qed.

(** [trim] leaves nothing exactly when the string is empty or made of
    white space only. *)
Lemma trim_blank_iff (s : string) :
  trim s = "" <-> forallb isWhiteSpace (list_ascii_of_string s) = true.
Proof.
  unfold trim. rewrite <- trimStart_blank_iff.
  destruct (trimStart s) as [|c rest] eqn:Hs; [tauto|].
  apply trimStart_head in Hs. split; [|discriminate].
  intros Hend. now apply trimEnd_keeps_head in Hend.
Qed.

Lemma truthy_iff (s : string) : truthy s = true <-> s <> "".
Proof. destruct s; simpl; split; congruence. Qed.

Lemma or_else_truthy (v : option string) (fallback : string) :
  truthy fallback = true -> truthy (or_else v fallback) = true.
Proof.
  intros Hf. destruct v as [s|]; simpl; [|exact Hf].
  destruct (truthy s) eqn:Hs; [exact Hs | exact Hf].
Qed.

(* ===================================================================== *)
(** ** The service, phase by phase                                        *)
(* ===================================================================== *)

(** Sequencing, seen through [events] and [outcome]. *)
Lemma bind_outcome {A B} (m : Svc A) (k : A -> Svc B) :
  outcome (bind m k) =
    match outcome m with
    | Normal a => outcome (k a)
    | Throw e => Throw e
    end.
Proof.
  destruct m as [log [a|e]]; cbn; [|reflexivity]. now destruct (k a).
Qed.

Lemma bind_events {A B} (m : Svc A) (k : A -> Svc B) :
  events (bind m k) =
    match outcome m with
    | Normal a => (events m ++ events (k a))%list
    | Throw _ => events m
    end.
Proof.
  destruct m as [log [a|e]]; cbn; [|reflexivity]. now destruct (k a).
Qed.

Lemma generateImage_phases h p m ar :
  generateImage h p m ar = (checkApiKey h m ;; afterKeyCheck h p m ar).
Proof. reflexivity. Qed.

Lemma checkApiKey_FLASH h : checkApiKey h FLASH = ([], Normal tt).
Proof. reflexivity. Qed.

Lemma checkApiKey_no_aistudio h m :
  aistudio h = None -> checkApiKey h m = ([], Normal tt).
Proof. intros Hs. unfold checkApiKey. rewrite Hs. now destruct m. Qed.

Lemma checkApiKey_PRO h studio :
  aistudio h = Some studio ->
  checkApiKey h PRO =
    ([HasSelectedApiKey],
     match hasSelectedApiKey studio with
     | Normal true => Normal tt
     | Normal false => Throw (Error "API_KEY_REQUIRED")
     | Throw e => Throw e
     end).
Proof.
  intros Hs. unfold checkApiKey. rewrite Hs. cbn.
  destruct (hasSelectedApiKey studio) as [[|]|e]; reflexivity.
Qed.

(** The key check in full. *)
Lemma checkApiKey_run h m :
  checkApiKey h m =
    match m, aistudio h with
    | PRO, Some studio =>
        ([HasSelectedApiKey],
         match hasSelectedApiKey studio with
         | Normal true => Normal tt
         | Normal false => Throw (Error "API_KEY_REQUIRED")
         | Throw e => Throw e
         end)
    | _, _ => ([], Normal tt)
    end.
Proof.
  destruct m; [reflexivity|].
  destruct (aistudio h) as [studio|] eqn:Hs.
  - now apply checkApiKey_PRO.
  - now apply checkApiKey_no_aistudio.
Qed.

(** The key check performs no provider call. *)
Lemma checkApiKey_events h m :
  existsb isGenerateContent (events (checkApiKey h m)) = false.
Proof.
  destruct m; [reflexivity|].
  destruct (aistudio h) as [studio|] eqn:Hs.
  - now rewrite (checkApiKey_PRO h Hs).
  - now rewrite checkApiKey_no_aistudio.
Qed.

(** The [catch] clause writes its console line, then throws. *)
Lemma onProviderError_run h m e :
  onProviderError h m e =
    ([ConsoleError "Gemini Image Generation Error:" e], rethrown h m e).
Proof.
  unfold onProviderError, rethrown. cbn.
  destruct (readMessage h e) as [text|te]; cbn; [|reflexivity].
  now destruct (opt_includes text "Requested entity was not found" && isPRO m).
Qed.

(** A caught value that has a message is re-classified under the
    high-fidelity model when the message holds the text, and is thrown
    onwards as it is otherwise. *)
Lemma rethrown_with_message h m e msg :
  message e = Some msg ->
  rethrown h m e =
    if includes msg "Requested entity was not found" && isPRO m
    then Throw (Error "API_KEY_INVALID")
    else Throw e.
Proof.
  destruct e as [n text| |]; cbn; try discriminate.
  intros ->. reflexivity.
Qed.

(** The [catch] clause never returns. *)
Lemma rethrown_throws h m e : exists thrown, rethrown h m e = Throw thrown.
Proof.
  unfold rethrown. destruct (readMessage h e) as [text|te]; [|eauto].
  destruct (opt_includes text "Requested entity was not found" && isPRO m); eauto.
Qed.

(** The second phase in full: the client is built; then comes the provider
    call, and on a failure of the [try] block one console line for the
    value that was caught. *)
Lemma afterKeyCheck_run h p m ar :
  afterKeyCheck h p m ar =
    match newGoogleGenAI h with
    | Throw e => ([], Throw e)
    | Normal _ =>
        match tryBlock h p m ar with
        | Normal uri => ([GenerateContent (request p m ar)], Normal uri)
        | Throw caught =>
            ([GenerateContent (request p m ar);
              ConsoleError "Gemini Image Generation Error:" caught],
             rethrown h m caught)
        end
    end.
Proof.
  unfold afterKeyCheck, tryBlock. cbn.
  destruct (newGoogleGenAI h) as [[]|ce]; cbn; [|reflexivity].
  destruct (generateContent h (request p m ar)) as [response|e]; cbn.
  - destruct (firstCandidateParts h response) as [[ps|]|te]; cbn.
    + destruct (scanParts ps); cbn; [reflexivity|].
      rewrite onProviderError_run. reflexivity.
    + rewrite onProviderError_run. reflexivity.
    + rewrite onProviderError_run. reflexivity.
  - rewrite onProviderError_run. reflexivity.
Qed.

Lemma afterKeyCheck_outcome h p m ar :
  outcome (afterKeyCheck h p m ar) =
    match newGoogleGenAI h with
    | Throw e => Throw e
    | Normal _ =>
        match tryBlock h p m ar with
        | Normal uri => Normal uri
        | Throw caught => rethrown h m caught
        end
    end.
Proof.
  rewrite afterKeyCheck_run.
  destruct (newGoogleGenAI h); [|reflexivity]. now destruct (tryBlock h p m ar).
Qed.

(** Once the client is built, the provider call is the first thing the
    second phase does. *)
Lemma afterKeyCheck_events h p m ar :
  newGoogleGenAI h = Normal tt ->
  exists rest,
    events (afterKeyCheck h p m ar) = GenerateContent (request p m ar) :: rest.
Proof.
  intros Hclient. rewrite afterKeyCheck_run, Hclient.
  destruct (tryBlock h p m ar); eexists; reflexivity.
Qed.

Lemma generateImage_run h p m ar :
  generateImage h p m ar =
    match checkApiKey h m with
    | (log, Normal _) =>
        ((log ++ events (afterKeyCheck h p m ar))%list, outcome (afterKeyCheck h p m ar))
    | (log, Throw e) => (log, Throw e)
    end.
Proof.
  rewrite generateImage_phases.
  change (checkApiKey h m ;; afterKeyCheck h p m ar)
    with (Svc_bind (checkApiKey h m) (fun _ => afterKeyCheck h p m ar)).
  unfold Svc_bind.
  destruct (checkApiKey h m) as [log [[]|e]]; [|reflexivity].
  now destruct (afterKeyCheck h p m ar).
Qed.

Lemma generateImage_outcome h p m ar :
  outcome (generateImage h p m ar) =
    match outcome (checkApiKey h m) with
    | Normal _ => outcome (afterKeyCheck h p m ar)
    | Throw e => Throw e
    end.
Proof. rewrite generateImage_phases. apply bind_outcome. Qed.

Lemma generateImage_events h p m ar :
  events (generateImage h p m ar) =
    match outcome (checkApiKey h m) with
    | Normal _ => (events (checkApiKey h m) ++ events (afterKeyCheck h p m ar))%list
    | Throw _ => events (checkApiKey h m)
    end.
Proof. rewrite generateImage_phases. apply bind_events. Qed.

(** The provider is called exactly when the key check lets the request
    through and the client can be built. *)
Lemma provider_called_iff h p m ar :
  In (GenerateContent (request p m ar)) (events (generateImage h p m ar))
  <-> outcome (checkApiKey h m) = Normal tt /\ newGoogleGenAI h = Normal tt.
Proof.
  rewrite generateImage_events.
  assert (Hnot : ~ In (GenerateContent (request p m ar)) (events (checkApiKey h m))).
  { intros Hin.
    assert (Hex : existsb isGenerateContent (events (checkApiKey h m)) = true).
    { apply existsb_exists. eexists. split; [exact Hin | reflexivity]. }
    rewrite checkApiKey_events in Hex. discriminate. }
  destruct (outcome (checkApiKey h m)) as [[]|e] eqn:Hk.
  - rewrite afterKeyCheck_run.
    destruct (newGoogleGenAI h) as [[]|ce].
    + split; [intros _; now split|]. intros _. apply in_or_app. right.
      destruct (tryBlock h p m ar); now left.
    + split; [|intros [_ Habs]; discriminate].
      intros Hin. apply in_app_or in Hin. destruct Hin as [Hin|[]]. contradiction.
  - split; [contradiction | intros [Habs _]; discriminate].
Qed.

Lemma generateImage_events_nonempty h p m ar :
  newGoogleGenAI h = Normal tt ->
  events (generateImage h p m ar) <> [].
Proof.
  intros Hclient. rewrite generateImage_events.
  destruct (afterKeyCheck_events h p m ar Hclient) as [rest Hrest].
  destruct m.
  - rewrite checkApiKey_FLASH. cbn. now rewrite Hrest.
  - destruct (aistudio h) as [studio|] eqn:Hs.
    + rewrite (checkApiKey_PRO h Hs). cbn.
      now destruct (hasSelectedApiKey studio) as [[|]|e].
    + rewrite (checkApiKey_no_aistudio h PRO Hs). cbn. now rewrite Hrest.
Qed.

Lemma firstCandidateParts_throws_TypeError h response te :
  firstCandidateParts h response = Throw te -> name te = Some "TypeError".
Proof.
  unfold firstCandidateParts.
  destruct (candidates response) as [[|first others]|]; [| |discriminate].
  - now intros [= <-].
  - destruct (content first); [discriminate|]. now intros [= <-].
Qed.

Lemma scanParts_None_iff ps :
  scanParts ps = None <-> Forall (fun q => inlineImage q = None) ps.
Proof.
  induction ps as [|q ps IH]; cbn.
  - split; [constructor | reflexivity].
  - destruct (inlineImage q) as [[blob payload]|] eqn:Hq.
    + split; [discriminate|]. intros HF. inversion HF. congruence.
    + rewrite IH. split; [now constructor | intros HF; now inversion HF].
Qed.

(** The loop returns at the first part that carries inline data. *)
Lemma scanParts_first before part after blob payload :
  Forall (fun q => inlineImage q = None) before ->
  inlineImage part = Some (blob, payload) ->
  scanParts (before ++ part :: after)%list =
    Some ("data:" ++ or_else (mimeType blob) "image/png" ++ ";base64," ++ payload).
Proof.
  intros Hbefore Hpart. induction Hbefore as [|q qs Hq _ IH]; cbn.
  - now rewrite Hpart.
  - now rewrite Hq.
Qed.

(** A response whose candidate list is absent, or whose first candidate has
    a content in which no part carries inline data, makes [generateImage]
    fail with the no-image error, under either model. *)
Lemma generateImage_no_inline_image h p m ar response iterable :
  outcome (checkApiKey h m) = Normal tt ->
  newGoogleGenAI h = Normal tt ->
  generateContent h (request p m ar) = Normal response ->
  firstCandidateParts h response = Normal iterable ->
  match iterable with
  | Some ps => Forall (fun q => inlineImage q = None) ps
  | None => True
  end ->
  outcome (generateImage h p m ar) = Throw (Error "No image data found in response").
Proof.
  intros Hk Hclient Hresp Hparts Hnone.
  rewrite generateImage_outcome, Hk, afterKeyCheck_outcome, Hclient.
  unfold tryBlock. rewrite Hresp, Hparts.
  destruct iterable as [ps|].
  - apply scanParts_None_iff in Hnone. rewrite Hnone. now destruct m.
  - now destruct m.
Qed.

(* ===================================================================== *)
(** ** Properties of the generation client                                *)
(* ===================================================================== *)

(** C1. With the high-fidelity model and a host whose credential oracle
    answers that no key is selected, [generateImage] fails with the error
    of message API_KEY_REQUIRED, and the only call it made is the oracle
    query: the provider is never called. *)
Theorem generateImage_PRO_without_key h studio p ar :
  aistudio h = Some studio ->
  hasSelectedApiKey studio = Normal false ->
  outcome (generateImage h p PRO ar) = Throw (Error "API_KEY_REQUIRED")
  /\ events (generateImage h p PRO ar) = [HasSelectedApiKey]
  /\ forall req, ~ In (GenerateContent req) (events (generateImage h p PRO ar)).
Proof.
  intros Hs Hkey.
  assert (Hcheck : checkApiKey h PRO = ([HasSelectedApiKey], Throw (Error "API_KEY_REQUIRED"))).
  { rewrite (checkApiKey_PRO h Hs), Hkey. reflexivity. }
  assert (Hev : events (generateImage h p PRO ar) = [HasSelectedApiKey]).
  { rewrite generateImage_events, Hcheck. reflexivity. }
  repeat split.
  - rewrite generateImage_outcome, Hcheck. reflexivity.
  - exact Hev.
  - intros req Hin. rewrite Hev in Hin. destruct Hin as [Habs|[]]. discriminate.
Qed.

(** C2. A provider failure whose message contains the text
    Requested entity was not found is turned into the error of message
    API_KEY_INVALID under the high-fidelity model, and is rethrown as it is
    under the fast model. *)
Theorem entity_not_found_reclassified_for_PRO_only h p m ar e msg before after :
  In (GenerateContent (request p m ar)) (events (generateImage h p m ar)) ->
  generateContent h (request p m ar) = Throw e ->
  message e = Some msg ->
  msg = before ++ "Requested entity was not found" ++ after ->
  outcome (generateImage h p m ar) =
    match m with
    | PRO => Throw (Error "API_KEY_INVALID")
    | FLASH => Throw e
    end.
Proof.
  intros Hcalled Hfail Hmsg Hsub.
  apply provider_called_iff in Hcalled. destruct Hcalled as [Hkey Hclient].
  rewrite generateImage_outcome, Hkey, afterKeyCheck_outcome, Hclient.
  unfold tryBlock. rewrite Hfail, (rethrown_with_message h m e Hmsg).
  assert (Hinc : includes msg "Requested entity was not found" = true).
  { apply includes_iff. now exists before, after. }
  rewrite Hinc. now destruct m.
Qed.

(** C5. When the provider answers with a response whose first candidate
    has a part carrying inline data, [generateImage] returns the data URI
    of the first such part: data: then the media type then ;base64, then
    the payload.  The media type is the one the part declares, and
    image/png when it declares none (or an empty one).  Parts after the
    first match play no role. *)
Theorem generateImage_returns_first_inline_image
    h p m ar response first others c before part after blob payload :
  In (GenerateContent (request p m ar)) (events (generateImage h p m ar)) ->
  generateContent h (request p m ar) = Normal response ->
  candidates response = Some (first :: others) ->
  content first = Some c ->
  parts c = Some (before ++ part :: after)%list ->
  Forall (fun q => inlineImage q = None) before ->
  inlineData part = Some blob ->
  data blob = Some payload ->
  payload <> "" ->
  outcome (generateImage h p m ar) =
    Normal ("data:" ++ or_else (mimeType blob) "image/png" ++ ";base64," ++ payload)
  /\ (forall declared, mimeType blob = Some declared -> declared <> "" ->
      or_else (mimeType blob) "image/png" = declared)
  /\ (mimeType blob = None -> or_else (mimeType blob) "image/png" = "image/png").
Proof.
  intros Hcalled Hresp Hcands Hcontent Hparts Hbefore Hinline Hdata Hpayload.
  apply provider_called_iff in Hcalled. destruct Hcalled as [Hkey Hclient].
  assert (Hpart : inlineImage part = Some (blob, payload)).
  { unfold inlineImage. rewrite Hinline, Hdata.
    apply truthy_iff in Hpayload. now rewrite Hpayload. }
  repeat split.
  - rewrite generateImage_outcome, Hkey, afterKeyCheck_outcome, Hclient.
    unfold tryBlock. rewrite Hresp.
    unfold firstCandidateParts. rewrite Hcands, Hcontent, Hparts.
    now rewrite (@scanParts_first before part after blob payload Hbefore Hpart).
  - intros declared Hdecl Hne. rewrite Hdecl. cbn.
    apply truthy_iff in Hne. now rewrite Hne.
  - intros Hnone. now rewrite Hnone.
Qed.

(** C10 (amended). With the high-fidelity model and no
    [window.aistudio], the key check asks nothing and returns, so the
    oracle is never queried and [generateImage] behaves as its second
    phase does: it builds the client and, when the constructor returns,
    the provider call is the first call it makes; when the constructor
    throws, [generateImage] fails with what it threw and calls nothing.
    An error API_KEY_REQUIRED can then only be one that the constructor or
    the provider itself threw. *)
Theorem generateImage_PRO_without_aistudio h p ar :
  aistudio h = None ->
  checkApiKey h PRO = ([], Normal tt)
  /\ ~ In HasSelectedApiKey (events (generateImage h p PRO ar))
  /\ outcome (generateImage h p PRO ar) = outcome (afterKeyCheck h p PRO ar)
  /\ (newGoogleGenAI h = Normal tt ->
      exists rest,
        events (generateImage h p PRO ar) = GenerateContent (request p PRO ar) :: rest)
  /\ (forall thrown,
        newGoogleGenAI h = Throw thrown ->
        generateImage h p PRO ar = ([], Throw thrown))
  /\ (outcome (generateImage h p PRO ar) = Throw (Error "API_KEY_REQUIRED") ->
      newGoogleGenAI h = Throw (Error "API_KEY_REQUIRED")
      \/ generateContent h (request p PRO ar) = Throw (Error "API_KEY_REQUIRED")).
Proof.
  intros Hs.
  pose proof (checkApiKey_no_aistudio h PRO Hs) as Hcheck.
  assert (Hout : outcome (generateImage h p PRO ar) = outcome (afterKeyCheck h p PRO ar)).
  { rewrite generateImage_outcome, Hcheck. reflexivity. }
  assert (Hev : events (generateImage h p PRO ar) = events (afterKeyCheck h p PRO ar)).
  { rewrite generateImage_events, Hcheck. reflexivity. }
  split; [exact Hcheck|]. split; [|split; [exact Hout|split; [|split]]].
  - rewrite Hev, afterKeyCheck_run.
    destruct (newGoogleGenAI h) as [[]|ce]; [|intros []].
    destruct (tryBlock h p PRO ar); cbn; intros Hin;
      repeat destruct Hin as [Hin|Hin]; discriminate || contradiction.
  - intros Hclient. rewrite Hev. now apply afterKeyCheck_events.
  - intros thrown Hclient. rewrite generateImage_run, Hcheck, afterKeyCheck_run, Hclient.
    reflexivity.
  - rewrite Hout, afterKeyCheck_outcome.
    destruct (newGoogleGenAI h) as [[]|ce]; [|intros [= ->]; now left].
    unfold tryBlock.
    assert (Hcaught : forall caught,
               rethrown h PRO caught = Throw (Error "API_KEY_REQUIRED") ->
               caught = Error "API_KEY_REQUIRED").
    { intros caught. unfold rethrown.
      destruct caught as [n text| |]; cbn; try discriminate.
      destruct (opt_includes text "Requested entity was not found" && true);
        [discriminate | now intros [= -> ->]]. }
    destruct (generateContent h (request p PRO ar)) as [response|e].
    + destruct (firstCandidateParts h response) as [[ps|]|te] eqn:Hparts.
      * destruct (scanParts ps); [discriminate|].
        intros Hre. apply Hcaught in Hre. discriminate.
      * intros Hre. apply Hcaught in Hre. discriminate.
      * apply firstCandidateParts_throws_TypeError in Hparts.
        intros Hre. apply Hcaught in Hre. subst te. discriminate.
    + intros Hre. apply Hcaught in Hre. right. now rewrite Hre.
Qed.

(** C10, without the condition on the client: it is not so that with no
    [window.aistudio] every request under the high-fidelity model goes on
    to the provider.  On a host with no key in its environment the
    constructor of the client throws after the key check and before any
    call. *)
Lemma generateImage_PRO_without_aistudio_counterexample :
  ~ (forall h p ar,
        aistudio h = None ->
        In (GenerateContent (request p PRO ar)) (events (generateImage h p PRO ar))).
Proof.
  intros Hclaim.
  specialize (Hclaim (hostWithoutKey None (Normal (responseOf [pngPart])))
                "a red cube" SQUARE eq_refl).
  vm_compute in Hclaim. exact Hclaim.
Qed.

(* ===================================================================== *)
(** ** The controller, step by step                                       *)
(* ===================================================================== *)

(** One run of [handleGenerate] on a non-blank prompt: every event of the
    service call is seen against the started state, the final state is
    the settled one, and the handler completes as [completed] says. *)
Lemma handleGenerate_run h w :
  trim (prompt (ui w)) <> "" ->
  let g := generateImage h (prompt (ui w)) (model (ui w)) (aspectRatio (ui w)) in
  handleGenerate h w =
    (completed h (outcome g),
     {| ui := settled h (ui w) (outcome g);
        observed :=
          (observed w ++ map (fun ev => (ev, started (ui w))) (events g))%list |}).
Proof.
  intros Hprompt g. apply truthy_iff in Hprompt.
  unfold handleGenerate. cbn. unfold App_bind, App_finally, App_catch. cbn.
  rewrite Hprompt. cbn. fold g.
  destruct g as [log [imageUrl|err]]; cbn; [reflexivity|].
  unfold settled, completed, evaluate.
  destruct (readMessage h err) as [text|te]; cbn; [|reflexivity].
  now destruct (isKeyMessage text).
Qed.

(** What one run of [handleGenerate] adds to the observations. *)
Lemma handleGenerate_observed h w :
  trim (prompt (ui w)) <> "" ->
  exists seen,
    (newGoogleGenAI h = Normal tt -> seen <> [])
    /\ observed (snd (handleGenerate h w)) = (observed w ++ seen)%list
    /\ Forall (fun o => snd o = started (ui w)) seen.
Proof.
  intros Hprompt. rewrite (handleGenerate_run h w Hprompt). cbn.
  eexists. split; [|split; [reflexivity|]].
  - intros Hclient Hnil. apply map_eq_nil in Hnil. revert Hnil.
    now apply generateImage_events_nonempty.
  - apply Forall_forall. intros o Hin. apply in_map_iff in Hin.
    destruct Hin as [ev [<- _]]. reflexivity.
Qed.

(** The setters, laid open down to records of cells. *)
Ltac open_setters :=
  unfold settled, started, with_isLoading, with_error, with_currentImage,
    with_keySelectionNeeded, with_prompt, with_model, with_aspectRatio;
  cbn.

(** The loading flag is down in every settled state, thanks to the
    [finally] clause alone when the [catch] clause throws. *)
Lemma settled_not_loading h st r : isLoading (settled h st r) = false.
Proof. reflexivity. Qed.

(* ===================================================================== *)
(** ** Properties of the session controller                               *)
(* ===================================================================== *)

(** C3. On a prompt that is not blank, whatever the host answers:
    [isLoading] is true in the state on display at every call the attempt
    makes (and there is such a call whenever the client can be built), and
    [isLoading] is false in the state the handler leaves on each of its
    exits: the normal one, and the one where the [catch] clause itself
    throws because the generation call failed with [null] or
    [undefined]. *)
Theorem handleGenerate_isLoading_brackets_the_call h w :
  trim (prompt (ui w)) <> "" ->
  (exists seen,
      (newGoogleGenAI h = Normal tt -> seen <> [])
      /\ observed (snd (handleGenerate h w)) = (observed w ++ seen)%list
      /\ Forall (fun o => isLoading (snd o) = true) seen)
  /\ isLoading (ui (snd (handleGenerate h w))) = false
  /\ fst (handleGenerate h w) =
       match outcome (generateImage h (prompt (ui w)) (model (ui w))
                        (aspectRatio (ui w))) with
       | Throw ThrownNull => Throw (TypeError (readOfNull h "message"))
       | Throw ThrownUndefined => Throw (TypeError (readOfUndefined h "message"))
       | _ => Normal tt
       end.
Proof.
  intros Hprompt. split; [|split].
  - destruct (handleGenerate_observed h w Hprompt) as [seen [Hne [Hobs Hall]]].
    exists seen. repeat split; trivial.
    eapply Forall_impl; [|exact Hall]. intros o ->. reflexivity.
  - rewrite (handleGenerate_run h w Hprompt). apply settled_not_loading.
  - rewrite (handleGenerate_run h w Hprompt). cbn. unfold completed.
    destruct (outcome _) as [uri|[n text| |]]; reflexivity.
Qed.

(** C6. On a prompt that is not blank, in the state on display at every
    call the attempt makes (so before any outcome is known) [error] is
    null and [keySelectionNeeded] is false, whatever they were before;
    there is such a call whenever the client can be built. *)
Theorem handleGenerate_clears_error_and_key_flag_first h w :
  trim (prompt (ui w)) <> "" ->
  exists seen,
    (newGoogleGenAI h = Normal tt -> seen <> [])
    /\ observed (snd (handleGenerate h w)) = (observed w ++ seen)%list
    /\ Forall (fun o => error (snd o) = None /\ keySelectionNeeded (snd o) = false)
         seen.
Proof.
  intros Hprompt.
  destruct (handleGenerate_observed h w Hprompt) as [seen [Hne [Hobs Hall]]].
  exists seen. repeat split; trivial.
  eapply Forall_impl; [|exact Hall]. intros o ->. split; reflexivity.
Qed.

(** C7. On a blank prompt (empty once trimmed), [handleGenerate] returns at
    once: it completes normally, no state cell changes and nothing is
    called. *)
Theorem handleGenerate_blank_prompt_is_noop h w :
  trim (prompt (ui w)) = "" ->
  handleGenerate h w = (Normal tt, w).
Proof.
  intros Hblank.
  assert (Hfalsy : truthy (trim (prompt (ui w))) = false) by now rewrite Hblank.
  unfold handleGenerate. cbn. unfold App_bind. cbn.
  now rewrite Hfalsy.
Qed.

(** C8. When [window.aistudio] is there: if [openSelectKey] resolves,
    [handleKeySelection] sets [keySelectionNeeded] to false, changes
    nothing else and calls nothing but [openSelectKey] (no generation); if
    it rejects, [keySelectionNeeded] keeps its value and [error] becomes the
    fixed message. *)
Theorem handleKeySelection_resolved_or_rejected h studio w :
  aistudio h = Some studio ->
  match openSelectKey studio with
  | Normal _ =>
      handleKeySelection h w =
        (Normal tt,
         {| ui := with_keySelectionNeeded false (ui w);
            observed := (observed w ++ [(OpenSelectKey, ui w)])%list |})
  | Throw e =>
      handleKeySelection h w =
        (Normal tt,
         {| ui := with_error (Some "Failed to select API key. Please try again.") (ui w);
            observed :=
              (observed w ++ [(OpenSelectKey, ui w);
                              (ConsoleError "Key selection failed" e, ui w)])%list |})
  end
  /\ (forall req st, ~ In (GenerateContent req, st)
                        (skipn (length (observed w))
                           (observed (snd (handleKeySelection h w)))))
  /\ keySelectionNeeded (ui (snd (handleKeySelection h w))) =
       match openSelectKey studio with
       | Normal _ => false
       | Throw _ => keySelectionNeeded (ui w)
       end.
Proof.
  intros Hs. unfold handleKeySelection. rewrite Hs. cbn.
  unfold App_catch, App_bind, perform. cbn.
  destruct (openSelectKey studio) as [[]|e]; cbn.
  - split; [reflexivity|]. split; [|reflexivity].
    intros req st. rewrite skipn_app, skipn_all, Nat.sub_diag. cbn.
    intros [Habs|[]]. discriminate.
  - rewrite <- app_assoc. cbn.
    split; [reflexivity|]. split; [|reflexivity].
    intros req st. rewrite skipn_app, skipn_all, Nat.sub_diag. cbn.
    intros [Habs|[Habs|[]]]; discriminate.
Qed.



(* ===================================================================== *)
(** ** Responses without a first content                                  *)
(* ===================================================================== *)

(** When the candidate list is empty, or the first candidate has no
    content, the condition of the [if] that guards the loop throws before
    the no-image error can be raised: whatever the engine's wording, the
    failure of [generateImage] is not the no-image error. *)
Lemma generateImage_missing_content_not_no_image h p m ar response :
  outcome (checkApiKey h m) = Normal tt ->
  newGoogleGenAI h = Normal tt ->
  generateContent h (request p m ar) = Normal response ->
  (candidates response = Some []
   \/ exists first others,
        candidates response = Some (first :: others) /\ content first = None) ->
  exists thrown,
    outcome (generateImage h p m ar) = Throw thrown
    /\ thrown <> Error "No image data found in response".
Proof.
  intros Hk Hclient Hresp Hshape.
  assert (Hte : exists te, firstCandidateParts h response = Throw te).
  { unfold firstCandidateParts.
    destruct Hshape as [->|[first [others [-> ->]]]]; eexists; reflexivity. }
  destruct Hte as [te Hte].
  pose proof (firstCandidateParts_throws_TypeError h response Hte) as Hname.
  rewrite generateImage_outcome, Hk, afterKeyCheck_outcome, Hclient.
  unfold tryBlock. rewrite Hresp, Hte. unfold rethrown.
  destruct te as [n text| |]; try discriminate. cbn in Hname. subst n. cbn.
  destruct (opt_includes text "Requested entity was not found" && isPRO m).
  - eexists. split; [reflexivity | discriminate].
  - eexists. split; [reflexivity | discriminate].
Qed.

(** C4. A response in which no part carries inline image data, tried on
    three shapes.  For a first candidate without content, and for an empty
    candidate list, [generateImage] throws the engine's [TypeError] and not
    the error No image data found in response, and [handleGenerate]
    displays the engine's text.  For a first content with zero parts the
    no-image error is thrown and [keySelectionNeeded] ends false. *)
Theorem generateImage_without_first_content_throws_TypeError :
  outcome (generateImage (hostOf None (Normal blockedResponse))
             "a red cube" FLASH SQUARE)
    = Throw (TypeError "Cannot read properties of undefined (reading 'parts')")
  /\ outcome (generateImage (hostOf None (Normal emptyResponse))
                "a red cube" FLASH SQUARE)
       = Throw (TypeError "Cannot read properties of undefined (reading 'content')")
  /\ error (ui (snd (handleGenerate (hostOf None (Normal blockedResponse))
                       (atRest "a red cube" FLASH))))
       = Some "Cannot read properties of undefined (reading 'parts')"
  /\ outcome (generateImage (hostOf None (Normal (responseOf [])))
                "a red cube" FLASH SQUARE)
       = Throw (Error "No image data found in response")
  /\ keySelectionNeeded
       (ui (snd (handleGenerate (hostOf None (Normal (responseOf [])))
                   (atRest "a red cube" FLASH))))
       = false.
Proof. repeat apply conj; reflexivity. Qed.

(* ===================================================================== *)
(** ** The properties at the four scenarios                               *)
(* ===================================================================== *)

Lemma generateImage_PRO_without_key_witness :
  aistudio scenarioB = Some noKeySelected
  /\ hasSelectedApiKey noKeySelected = Normal false
  /\ outcome (generateImage scenarioB "a red cube" PRO SQUARE)
       = Throw (Error "API_KEY_REQUIRED")
  /\ events (generateImage scenarioB "a red cube" PRO SQUARE) = [HasSelectedApiKey]
  /\ forall req,
       ~ In (GenerateContent req) (events (generateImage scenarioB "a red cube" PRO SQUARE)).
Proof.
  split; [reflexivity|]. split; [reflexivity|].
  apply (@generateImage_PRO_without_key scenarioB noKeySelected "a red cube" SQUARE);
    reflexivity.
Defined.

Lemma entity_not_found_reclassified_for_PRO_only_witness :
  (In (GenerateContent (request "a red cube" PRO SQUARE))
      (events (generateImage scenarioC "a red cube" PRO SQUARE))
   /\ In (GenerateContent (request "a red cube" FLASH SQUARE))
        (events (generateImage scenarioC "a red cube" FLASH SQUARE)))
  /\ (forall m, generateContent scenarioC (request "a red cube" m SQUARE)
                = Throw entityNotFound)
  /\ message entityNotFound = Some "404 NOT_FOUND: Requested entity was not found."
  /\ "404 NOT_FOUND: Requested entity was not found."
       = "404 NOT_FOUND: " ++ "Requested entity was not found" ++ "."
  /\ outcome (generateImage scenarioC "a red cube" PRO SQUARE)
       = Throw (Error "API_KEY_INVALID")
  /\ outcome (generateImage scenarioC "a red cube" FLASH SQUARE)
       = Throw entityNotFound.
Proof.
  assert (HPRO : In (GenerateContent (request "a red cube" PRO SQUARE))
                   (events (generateImage scenarioC "a red cube" PRO SQUARE))).
  { vm_compute. right. left. reflexivity. }
  assert (HFLASH : In (GenerateContent (request "a red cube" FLASH SQUARE))
                     (events (generateImage scenarioC "a red cube" FLASH SQUARE))).
  { vm_compute. left. reflexivity. }
  split; [exact (conj HPRO HFLASH)|].
  split; [reflexivity|]. split; [reflexivity|]. split; [reflexivity|].
  split.
  - exact (@entity_not_found_reclassified_for_PRO_only scenarioC "a red cube" PRO SQUARE
             entityNotFound _ "404 NOT_FOUND: " "." HPRO eq_refl eq_refl eq_refl).
  - exact (@entity_not_found_reclassified_for_PRO_only scenarioC "a red cube" FLASH SQUARE
             entityNotFound _ "404 NOT_FOUND: " "." HFLASH eq_refl eq_refl eq_refl).
Defined.

Lemma generateImage_returns_first_inline_image_witness :
  In (GenerateContent (request "a red cube" FLASH SQUARE))
     (events (generateImage scenarioA "a red cube" FLASH SQUARE))
  /\ generateContent scenarioA (request "a red cube" FLASH SQUARE)
       = Normal (responseOf [textPart; untypedPart; pngPart])
  /\ Forall (fun q => inlineImage q = None) [textPart]
  /\ "R0lGODlh" <> ""
  /\ outcome (generateImage scenarioA "a red cube" FLASH SQUARE)
       = Normal "data:image/png;base64,R0lGODlh".
Proof.
  assert (Hcalled : In (GenerateContent (request "a red cube" FLASH SQUARE))
                      (events (generateImage scenarioA "a red cube" FLASH SQUARE))).
  { vm_compute. left. reflexivity. }
  assert (Hbefore : Forall (fun q => inlineImage q = None) [textPart]).
  { repeat constructor. }
  assert (Hpayload : "R0lGODlh" <> "") by discriminate.
  split; [exact Hcalled|]. split; [reflexivity|].
  split; [exact Hbefore|]. split; [exact Hpayload|].
  exact (proj1
           (@generateImage_returns_first_inline_image scenarioA "a red cube" FLASH SQUARE
              (responseOf [textPart; untypedPart; pngPart])
              (mkCandidate (Some (mkContent (Some [textPart; untypedPart; pngPart]))))
              [] (mkContent (Some [textPart; untypedPart; pngPart]))
              [textPart] untypedPart [pngPart]
              (mkBlob (Some "R0lGODlh") None) "R0lGODlh"
              Hcalled eq_refl eq_refl eq_refl eq_refl Hbefore eq_refl eq_refl Hpayload)).
Defined.

Lemma generateImage_PRO_without_aistudio_witness :
  aistudio scenarioA = None
  /\ newGoogleGenAI scenarioA = Normal tt
  /\ checkApiKey scenarioA PRO = ([], Normal tt)
  /\ (exists rest,
        events (generateImage scenarioA "a red cube" PRO SQUARE)
          = GenerateContent (request "a red cube" PRO SQUARE) :: rest)
  /\ aistudio (hostWithoutKey None (Normal (responseOf [pngPart]))) = None
  /\ generateImage (hostWithoutKey None (Normal (responseOf [pngPart])))
       "a red cube" PRO SQUARE
     = ([], Throw (Error "An API Key must be set when running in a browser")).
Proof.
  pose proof (@generateImage_PRO_without_aistudio scenarioA "a red cube" SQUARE eq_refl)
    as [Hcheck [_ [_ [Hfirst _]]]].
  pose proof (@generateImage_PRO_without_aistudio
                (hostWithoutKey None (Normal (responseOf [pngPart])))
                "a red cube" SQUARE eq_refl)
    as [_ [_ [_ [_ [Hthrows _]]]]].
  split; [reflexivity|]. split; [reflexivity|]. split; [exact Hcheck|].
  split; [exact (Hfirst eq_refl)|]. split; [reflexivity|].
  exact (Hthrows _ eq_refl).
Defined.

Lemma handleGenerate_isLoading_brackets_the_call_witness :
  trim (prompt (ui (atRest "a red cube" PRO))) <> ""
  /\ (exists seen,
        (newGoogleGenAI (hostOf (Some oracleRejectsUndefined)
                           (Normal (responseOf [pngPart]))) = Normal tt ->
         seen <> [])
        /\ observed (snd (handleGenerate
                            (hostOf (Some oracleRejectsUndefined)
                               (Normal (responseOf [pngPart])))
                            (atRest "a red cube" PRO)))
             = (observed (atRest "a red cube" PRO) ++ seen)%list
        /\ Forall (fun o => isLoading (snd o) = true) seen)
  /\ isLoading (ui (snd (handleGenerate
                           (hostOf (Some oracleRejectsUndefined)
                              (Normal (responseOf [pngPart])))
                           (atRest "a red cube" PRO)))) = false
  /\ fst (handleGenerate
            (hostOf (Some oracleRejectsUndefined) (Normal (responseOf [pngPart])))
            (atRest "a red cube" PRO))
     = Throw (TypeError "Cannot read properties of undefined (reading 'message')").
Proof.
  assert (Hprompt : trim (prompt (ui (atRest "a red cube" PRO))) <> "").
  { vm_compute. discriminate. }
  split; [exact Hprompt|].
  exact (@handleGenerate_isLoading_brackets_the_call
           (hostOf (Some oracleRejectsUndefined) (Normal (responseOf [pngPart])))
           (atRest "a red cube" PRO) Hprompt).
Defined.

Lemma handleGenerate_clears_error_and_key_flag_first_witness :
  trim (prompt (ui (atRest "a red cube" FLASH))) <> ""
  /\ error (ui (atRest "a red cube" FLASH)) = Some "earlier failure"
  /\ keySelectionNeeded (ui (atRest "a red cube" FLASH)) = true
  /\ exists seen,
       (newGoogleGenAI scenarioA = Normal tt -> seen <> [])
       /\ observed (snd (handleGenerate scenarioA (atRest "a red cube" FLASH)))
            = (observed (atRest "a red cube" FLASH) ++ seen)%list
       /\ Forall (fun o => error (snd o) = None /\ keySelectionNeeded (snd o) = false)
            seen.
Proof.
  assert (Hprompt : trim (prompt (ui (atRest "a red cube" FLASH))) <> "").
  { vm_compute. discriminate. }
  split; [exact Hprompt|]. split; [reflexivity|]. split; [reflexivity|].
  exact (@handleGenerate_clears_error_and_key_flag_first scenarioA
           (atRest "a red cube" FLASH) Hprompt).
Defined.

Lemma handleGenerate_blank_prompt_is_noop_witness :
  trim (prompt (ui (atRest "   " PRO))) = ""
  /\ handleGenerate scenarioB (atRest "   " PRO) = (Normal tt, atRest "   " PRO).
Proof.
  split; [reflexivity|].
  apply (@handleGenerate_blank_prompt_is_noop scenarioB (atRest "   " PRO)).
  reflexivity.
Defined.

Lemma handleKeySelection_resolved_or_rejected_witness :
  aistudio scenarioB = Some noKeySelected
  /\ openSelectKey noKeySelected = Normal tt
  /\ handleKeySelection scenarioB (atRest "a red cube" PRO) =
       (Normal tt,
        {| ui := with_keySelectionNeeded false (ui (atRest "a red cube" PRO));
           observed := [(OpenSelectKey, ui (atRest "a red cube" PRO))] |})
  /\ aistudio (hostOf (Some selectorFails) (Normal (responseOf []))) = Some selectorFails
  /\ openSelectKey selectorFails = Throw (Error "dialog dismissed")
  /\ keySelectionNeeded
       (ui (snd (handleKeySelection (hostOf (Some selectorFails) (Normal (responseOf [])))
                   (atRest "a red cube" PRO)))) = true
  /\ error
       (ui (snd (handleKeySelection (hostOf (Some selectorFails) (Normal (responseOf [])))
                   (atRest "a red cube" PRO))))
       = Some "Failed to select API key. Please try again.".
Proof.
  pose proof (@handleKeySelection_resolved_or_rejected scenarioB noKeySelected
                (atRest "a red cube" PRO) eq_refl) as Hresolved.
  pose proof (@handleKeySelection_resolved_or_rejected
                (hostOf (Some selectorFails) (Normal (responseOf []))) selectorFails
                (atRest "a red cube" PRO) eq_refl) as Hrejected.
  cbn [openSelectKey noKeySelected selectorFails] in Hresolved, Hrejected.
  destruct Hresolved as [Hrun _]. destruct Hrejected as [Hrun' [_ Hflag]].
  split; [reflexivity|]. split; [reflexivity|]. split; [exact Hrun|].
  split; [reflexivity|]. split; [reflexivity|]. split; [exact Hflag|].
  rewrite Hrun'. reflexivity.
Defined.


(* ===================================================================== *)
(** ** More on the generation client                                      *)
(* ===================================================================== *)

Lemma or_else_nonempty (v : option string) (fallback : string) :
  fallback <> "" -> or_else v fallback <> "".
Proof. intros Hf. apply truthy_iff, or_else_truthy, truthy_iff, Hf. Qed.

(** What the loop returns was built from one of the parts it was given. *)
Lemma scanParts_Some ps uri :
  scanParts ps = Some uri ->
  exists part blob payload,
    In part ps
    /\ inlineData part = Some blob
    /\ data blob = Some payload
    /\ payload <> ""
    /\ uri = "data:" ++ or_else (mimeType blob) "image/png" ++ ";base64," ++ payload.
Proof.
  induction ps as [|q ps IH]; cbn; [discriminate|].
  destruct (inlineImage q) as [[blob payload]|] eqn:Hq.
  - intros [= <-]. unfold inlineImage in Hq.
    destruct (inlineData q) as [b|] eqn:Hb; [|discriminate].
    destruct (data b) as [d|] eqn:Hd; [|discriminate].
    destruct (truthy d) eqn:Ht; [|discriminate].
    injection Hq as <- <-.
    exists q, b, d. repeat split; auto. now apply truthy_iff.
  - intros Hrest. destruct (IH Hrest) as [part [blob [payload [Hin Hrest']]]].
    exists part, blob, payload. split; [now right | exact Hrest'].
Qed.

(** X1. Whatever [generateImage] returns is a data URI built from a part
    of the first candidate of the provider's response: data: then a
    non-empty media type then ;base64, then that part's non-empty
    payload. *)
Theorem generateImage_result_is_data_uri h p m ar uri :
  outcome (generateImage h p m ar) = Normal uri ->
  exists response first others c ps part blob payload,
    generateContent h (request p m ar) = Normal response
    /\ candidates response = Some (first :: others)
    /\ content first = Some c
    /\ parts c = Some ps
    /\ In part ps
    /\ inlineData part = Some blob
    /\ data blob = Some payload
    /\ payload <> ""
    /\ or_else (mimeType blob) "image/png" <> ""
    /\ uri = "data:" ++ or_else (mimeType blob) "image/png" ++ ";base64," ++ payload.
Proof.
  rewrite generateImage_outcome.
  destruct (outcome (checkApiKey h m)) as [[]|e]; [|discriminate].
  rewrite afterKeyCheck_outcome.
  destruct (newGoogleGenAI h) as [[]|ce]; [|discriminate].
  assert (Hcatch : forall caught, rethrown h m caught = Normal uri -> False).
  { intros caught Hre. destruct (rethrown_throws h m caught) as [thrown Hthrown].
    congruence. }
  unfold tryBlock.
  destruct (generateContent h (request p m ar)) as [response|e] eqn:Hresp;
    [|intros Hre; now apply Hcatch in Hre].
  unfold firstCandidateParts.
  destruct (candidates response) as [[|first others]|] eqn:Hc;
    try (intros Hre; now apply Hcatch in Hre).
  destruct (content first) as [c|] eqn:Hcontent;
    [|intros Hre; now apply Hcatch in Hre].
  destruct (parts c) as [ps|] eqn:Hparts;
    [|intros Hre; now apply Hcatch in Hre].
  destruct (scanParts ps) as [found|] eqn:Hscan;
    [|intros Hre; now apply Hcatch in Hre].
  intros [= <-].
  destruct (scanParts_Some ps Hscan)
    as [part [blob [payload [Hin [Hinline [Hdata [Hne Huri]]]]]]].
  exists response, first, others, c, ps, part, blob, payload.
  repeat split; auto.
  apply or_else_nonempty. discriminate.
Qed.

(** X2. One invocation of [generateImage] calls the provider at most once,
    and only with the request built from its own arguments; it asks the
    key oracle at most once, and only under the high-fidelity model with
    [window.aistudio] present; it never opens the key selector. *)
Theorem generateImage_call_discipline h p m ar :
  let log := events (generateImage h p m ar) in
  (length (filter isGenerateContent log) <= 1)%nat
  /\ (forall req, In (GenerateContent req) log -> req = request p m ar)
  /\ (length (filter isHasSelectedApiKey log) <= 1)%nat
  /\ (In HasSelectedApiKey log -> m = PRO /\ aistudio h <> None)
  /\ ~ In OpenSelectKey log.
Proof.
  cbn zeta. rewrite generateImage_run, checkApiKey_run, afterKeyCheck_run.
  unfold events, outcome.
  destruct m, (aistudio h) as [studio|];
    try destruct (hasSelectedApiKey studio) as [[|]|e];
    destruct (newGoogleGenAI h) as [[]|ce];
    try match goal with
    | |- context [tryBlock ?a ?b ?c ?d] => destruct (tryBlock a b c d) as [uri|caught]
    end; cbn;
    repeat split; try lia; try discriminate;
    unfold not; intros; repeat match goal with
                   | H : _ \/ _ |- _ => destruct H
                   | H : False |- _ => destruct H
                   | H : GenerateContent _ = GenerateContent _ |- _ =>
                       injection H as <-
                   end; try discriminate; try reflexivity; try tauto.
Qed.

(** X3. When the key oracle itself rejects, [generateImage] fails with
    what the oracle rejected with, as it is, having called neither the
    provider nor the console.  [handleGenerate] then raises the key panel
    if that value's message is API_KEY_REQUIRED or API_KEY_INVALID; shows
    its message, or the fallback text when it has none or an empty one, if
    it is any other value that has properties; and if it is [null] or
    [undefined] sets neither cell and throws the engine's own error. *)
Theorem generateImage_oracle_rejection h studio e w :
  aistudio h = Some studio ->
  hasSelectedApiKey studio = Throw e ->
  model (ui w) = PRO ->
  trim (prompt (ui w)) <> "" ->
  generateImage h (prompt (ui w)) PRO (aspectRatio (ui w)) = ([HasSelectedApiKey], Throw e)
  /\ (message e = Some "API_KEY_REQUIRED" \/ message e = Some "API_KEY_INVALID" ->
      keySelectionNeeded (ui (snd (handleGenerate h w))) = true
      /\ error (ui (snd (handleGenerate h w))) = None
      /\ fst (handleGenerate h w) = Normal tt)
  /\ (forall n text,
        e = Thrown n text ->
        text <> Some "API_KEY_REQUIRED" ->
        text <> Some "API_KEY_INVALID" ->
        keySelectionNeeded (ui (snd (handleGenerate h w))) = false
        /\ error (ui (snd (handleGenerate h w)))
           = Some (or_else text "An unexpected error occurred while generating the image.")
        /\ fst (handleGenerate h w) = Normal tt)
  /\ (e = ThrownNull ->
      keySelectionNeeded (ui (snd (handleGenerate h w))) = false
      /\ error (ui (snd (handleGenerate h w))) = None
      /\ fst (handleGenerate h w) = Throw (TypeError (readOfNull h "message")))
  /\ (e = ThrownUndefined ->
      keySelectionNeeded (ui (snd (handleGenerate h w))) = false
      /\ error (ui (snd (handleGenerate h w))) = None
      /\ fst (handleGenerate h w) = Throw (TypeError (readOfUndefined h "message"))).
Proof.
  intros Hs Hreject Hmodel Hprompt.
  assert (Hrun : generateImage h (prompt (ui w)) PRO (aspectRatio (ui w))
                 = ([HasSelectedApiKey], Throw e)).
  { rewrite generateImage_run, (checkApiKey_PRO h Hs), Hreject. reflexivity. }
  split; [exact Hrun|].
  rewrite (handleGenerate_run h w Hprompt). cbn zeta. cbn [fst snd ui].
  rewrite Hmodel, Hrun. cbn [outcome snd]. unfold settled, completed.
  split; [|split; [|split]].
  - intros Hkey. destruct e as [n text| |]; cbn in Hkey;
      try (destruct Hkey; discriminate).
    cbn. destruct Hkey as [->| ->]; cbn; repeat split.
  - intros n text -> Hrequired Hinvalid. cbn.
    assert (Hother : isKeyMessage text = false).
    { unfold isKeyMessage, strict_eq. destruct text as [t|]; [|reflexivity].
      apply orb_false_iff. split; apply String.eqb_neq; congruence. }
    rewrite Hother. cbn. repeat split.
  - intros ->. cbn. repeat split.
  - intros ->. cbn. repeat split.
Qed.

(** X4. When the [try] block of [generateImage] fails, exactly one line is
    written to the console, and it carries the value that was caught (the
    provider's, the engine's or the no-image error), also when what is
    thrown onwards is something else.  Nothing is written when the call
    succeeds, when the key check stops it, or when the client cannot be
    built. *)
Theorem generateImage_console_lines h p m ar :
  filter isConsoleError (events (generateImage h p m ar)) =
    match outcome (checkApiKey h m), newGoogleGenAI h, tryBlock h p m ar with
    | Normal _, Normal _, Throw caught =>
        [ConsoleError "Gemini Image Generation Error:" caught]
    | _, _, _ => []
    end.
Proof.
  rewrite generateImage_run, checkApiKey_run, afterKeyCheck_run.
  unfold events, outcome.
  destruct m, (aistudio h) as [studio|];
    try destruct (hasSelectedApiKey studio) as [[|]|e];
    destruct (newGoogleGenAI h) as [[]|ce];
    try match goal with
    | |- context [tryBlock ?a ?b ?c ?d] => destruct (tryBlock a b c d) as [uri|caught]
    end; reflexivity.
Qed.

(* ===================================================================== *)
(** ** More on the two handlers                                           *)
(* ===================================================================== *)

(** [handleKeySelection] in full. *)
Lemma handleKeySelection_run h w :
  handleKeySelection h w =
    (Normal tt,
     match aistudio h with
     | None =>
         {| ui := with_error (Some "AI Studio environment not detected.") (ui w);
            observed := observed w |}
     | Some studio =>
         match openSelectKey studio with
         | Normal _ =>
             {| ui := with_keySelectionNeeded false (ui w);
                observed := (observed w ++ [(OpenSelectKey, ui w)])%list |}
         | Throw e =>
             {| ui := with_error (Some "Failed to select API key. Please try again.") (ui w);
                observed :=
                  (observed w ++ [(OpenSelectKey, ui w);
                                  (ConsoleError "Key selection failed" e, ui w)])%list |}
         end
     end).
Proof.
  unfold handleKeySelection. destruct (aistudio h) as [studio|]; cbn.
  - unfold App_catch, App_bind, perform. cbn.
    destruct (openSelectKey studio) as [[]|e]; cbn; [reflexivity|].
    now rewrite <- app_assoc.
  - reflexivity.
Qed.


(** X6. For every host and every state, blank prompt or not,
    [handleGenerate] leaves the prompt, the model and the aspect ratio as
    they were.  It completes without throwing, except when the prompt is
    not blank and the generation call failed with [null] or [undefined]:
    then it throws the engine's error for reading the message of that
    value. *)
Theorem handleGenerate_exits_and_keeps_inputs h w :
  prompt (ui (snd (handleGenerate h w))) = prompt (ui w)
  /\ model (ui (snd (handleGenerate h w))) = model (ui w)
  /\ aspectRatio (ui (snd (handleGenerate h w))) = aspectRatio (ui w)
  /\ fst (handleGenerate h w) =
       if truthy (trim (prompt (ui w)))
       then match outcome (generateImage h (prompt (ui w)) (model (ui w))
                             (aspectRatio (ui w))) with
            | Throw ThrownNull => Throw (TypeError (readOfNull h "message"))
            | Throw ThrownUndefined => Throw (TypeError (readOfUndefined h "message"))
            | _ => Normal tt
            end
       else Normal tt.
Proof.
  destruct (string_dec (trim (prompt (ui w))) "") as [Hblank|Hprompt].
  - assert (Hfalsy : truthy (trim (prompt (ui w))) = false) by now rewrite Hblank.
    assert (Hrun : handleGenerate h w = (Normal tt, w)).
    { unfold handleGenerate. cbn. unfold App_bind. cbn. now rewrite Hfalsy. }
    rewrite Hrun, Hfalsy. repeat split.
  - rewrite (handleGenerate_run h w Hprompt). cbn zeta. cbn [fst snd ui].
    apply truthy_iff in Hprompt. rewrite Hprompt.
    unfold settled, completed.
    destruct (outcome _) as [uri|[n text| |]]; cbn;
      try destruct (isKeyMessage text); repeat split.
Qed.

(** X7. The state an attempt leaves does not depend on the loading flag,
    the error or the key flag it started from: two states with the same
    form inputs and the same current image end in the same state. *)
Theorem handleGenerate_ignores_stale_flags h w w' :
  trim (prompt (ui w)) <> "" ->
  prompt (ui w') = prompt (ui w) ->
  model (ui w') = model (ui w) ->
  aspectRatio (ui w') = aspectRatio (ui w) ->
  currentImage (ui w') = currentImage (ui w) ->
  ui (snd (handleGenerate h w')) = ui (snd (handleGenerate h w)).
Proof.
  intros Hprompt Hp Hm Ha Hi.
  assert (Hprompt' : trim (prompt (ui w')) <> "") by now rewrite Hp.
  rewrite (handleGenerate_run h w Hprompt), (handleGenerate_run h w' Hprompt'). cbn.
  rewrite Hp, Hm, Ha. unfold settled, started.
  destruct (outcome _) as [uri|err];
    [|destruct (readMessage h err) as [text|te]; [destruct (isKeyMessage text)|]];
    unfold with_isLoading, with_currentImage, with_keySelectionNeeded, with_error;
    cbn; rewrite ?Hp, ?Hm, ?Ha, ?Hi; reflexivity.
Qed.

(** X8. Without [window.aistudio], [handleKeySelection] calls nothing, sets
    [error] to the environment-not-detected text and leaves every other
    cell, [keySelectionNeeded] included, as it was. *)
Theorem handleKeySelection_without_aistudio h w :
  aistudio h = None ->
  handleKeySelection h w =
    (Normal tt,
     {| ui := with_error (Some "AI Studio environment not detected.") (ui w);
        observed := observed w |}).
Proof. intros Hs. rewrite handleKeySelection_run. now rewrite Hs. Qed.

(** X9. For every host and every state, [handleKeySelection] completes
    without throwing, never calls the provider or the key oracle, and
    leaves the form inputs, [isLoading] and [currentImage] as they were. *)
Theorem handleKeySelection_frame h w :
  fst (handleKeySelection h w) = Normal tt
  /\ prompt (ui (snd (handleKeySelection h w))) = prompt (ui w)
  /\ model (ui (snd (handleKeySelection h w))) = model (ui w)
  /\ aspectRatio (ui (snd (handleKeySelection h w))) = aspectRatio (ui w)
  /\ isLoading (ui (snd (handleKeySelection h w))) = isLoading (ui w)
  /\ currentImage (ui (snd (handleKeySelection h w))) = currentImage (ui w)
  /\ exists seen,
       observed (snd (handleKeySelection h w)) = (observed w ++ seen)%list
       /\ Forall (fun o => isGenerateContent (fst o) = false
                           /\ isHasSelectedApiKey (fst o) = false) seen.
Proof.
  rewrite handleKeySelection_run. cbn.
  destruct (aistudio h) as [studio|]; [destruct (openSelectKey studio) as [[]|e]|];
    cbn; repeat split.
  - eexists. split; [reflexivity|]. repeat constructor.
  - eexists. split; [reflexivity|]. repeat constructor.
  - exists []. split; [now rewrite app_nil_r | constructor].
Qed.

(** X10. Recovery from a missing key.  An attempt under the high-fidelity
    model with no key selected ends with the key panel raised and the
    provider never called; a key selection that resolves brings the state
    back to rest, with the earlier image untouched and still no provider
    call; the next attempt, on a host where generation succeeds, stores
    the new image with no error and no key panel. *)
Theorem key_selection_then_retry h1 studio h2 w uri :
  trim (prompt (ui w)) <> "" ->
  model (ui w) = PRO ->
  aistudio h1 = Some studio ->
  hasSelectedApiKey studio = Normal false ->
  openSelectKey studio = Normal tt ->
  outcome (generateImage h2 (prompt (ui w)) PRO (aspectRatio (ui w))) = Normal uri ->
  let w1 := snd (handleGenerate h1 w) in
  let w2 := snd (handleKeySelection h1 w1) in
  let w3 := snd (handleGenerate h2 w2) in
  keySelectionNeeded (ui w1) = true
  /\ ui w2 =
       {| prompt := prompt (ui w); model := PRO; aspectRatio := aspectRatio (ui w);
          isLoading := false; error := None;
          currentImage := currentImage (ui w);
          keySelectionNeeded := false |}
  /\ map fst (observed w2)
       = (map fst (observed w) ++ [HasSelectedApiKey; OpenSelectKey])%list
  /\ ui w3 =
       {| prompt := prompt (ui w); model := PRO; aspectRatio := aspectRatio (ui w);
          isLoading := false; error := None;
          currentImage :=
            Some {| GeneratedImage.url := uri;
                    GeneratedImage.prompt := prompt (ui w);
                    GeneratedImage.timestamp := now h2;
                    GeneratedImage.model := PRO |};
          keySelectionNeeded := false |}.
Proof.
  intros Hprompt Hmodel Hs Hkey Hopen Hok w1 w2 w3.
  assert (Hrun1 : generateImage h1 (prompt (ui w)) PRO (aspectRatio (ui w))
                  = ([HasSelectedApiKey], Throw (Error "API_KEY_REQUIRED"))).
  { rewrite generateImage_run, (checkApiKey_PRO h1 Hs), Hkey. reflexivity. }
  assert (Hw1 : w1 =
            {| ui := {| prompt := prompt (ui w); model := PRO;
                        aspectRatio := aspectRatio (ui w);
                        isLoading := false; error := None;
                        currentImage := currentImage (ui w);
                        keySelectionNeeded := true |};
               observed := (observed w ++ [(HasSelectedApiKey, started (ui w))])%list |}).
  { unfold w1. rewrite (handleGenerate_run h1 w Hprompt). cbn zeta. cbn [snd].
    rewrite Hmodel, Hrun1. open_setters. now rewrite Hmodel. }
  assert (Hw2 : w2 =
            {| ui := {| prompt := prompt (ui w); model := PRO;
                        aspectRatio := aspectRatio (ui w);
                        isLoading := false; error := None;
                        currentImage := currentImage (ui w);
                        keySelectionNeeded := false |};
               observed :=
                 ((observed w ++ [(HasSelectedApiKey, started (ui w))])
                    ++ [(OpenSelectKey, ui w1)])%list |}).
  { unfold w2. rewrite handleKeySelection_run, Hs, Hopen. cbn.
    rewrite Hw1. open_setters. reflexivity. }
  split; [now rewrite Hw1|]. split; [now rewrite Hw2|]. split.
  - rewrite Hw2. cbn. rewrite !map_app, <- app_assoc. reflexivity.
  - assert (Hprompt2 : trim (prompt (ui w2)) <> "") by now rewrite Hw2.
    unfold w3. rewrite (handleGenerate_run h2 w2 Hprompt2). cbn zeta. cbn [snd ui].
    rewrite Hw2. cbn [ui prompt model aspectRatio]. rewrite Hok. open_setters.
    reflexivity.
Qed.

(* ===================================================================== *)
(** ** Sessions                                                           *)
(* ===================================================================== *)

Lemma handleGenerate_skip h w :
  trim (prompt (ui w)) = "" -> handleGenerate h w = (Normal tt, w).
Proof.
  intros Hblank.
  assert (Hfalsy : truthy (trim (prompt (ui w))) = false) by now rewrite Hblank.
  unfold handleGenerate. cbn. unfold App_bind. cbn. now rewrite Hfalsy.
Qed.

Lemma tryBlock_uri_shape h p m ar uri :
  tryBlock h p m ar = Normal uri ->
  exists mediaType payload,
    mediaType <> "" /\ payload <> ""
    /\ uri = "data:" ++ mediaType ++ ";base64," ++ payload.
Proof.
  unfold tryBlock.
  destruct (generateContent h (request p m ar)) as [response|e]; [|discriminate].
  destruct (firstCandidateParts h response) as [[ps|]|te]; try discriminate.
  destruct (scanParts ps) as [found|] eqn:Hscan; [|discriminate].
  intros [= <-].
  destruct (scanParts_Some ps Hscan) as [part [blob [payload [_ [_ [_ [Hne Huri]]]]]]].
  exists (or_else (mimeType blob) "image/png"), payload.
  repeat split; auto. apply or_else_nonempty. discriminate.
Qed.

Lemma generateImage_uri_shape h p m ar uri :
  outcome (generateImage h p m ar) = Normal uri ->
  exists mediaType payload,
    mediaType <> "" /\ payload <> ""
    /\ uri = "data:" ++ mediaType ++ ";base64," ++ payload.
Proof.
  rewrite generateImage_outcome, afterKeyCheck_outcome.
  destruct (outcome (checkApiKey h m)) as [[]|e]; [|discriminate].
  destruct (newGoogleGenAI h) as [[]|ce]; [|discriminate].
  destruct (tryBlock h p m ar) as [found|caught] eqn:Htry.
  - intros [= <-]. exact (tryBlock_uri_shape h p m ar Htry).
  - destruct (rethrown_throws h m caught) as [thrown ->]. discriminate.
Qed.

Lemma generateImage_requests h p m ar req :
  In (GenerateContent req) (events (generateImage h p m ar)) ->
  req = request p m ar.
Proof.
  rewrite generateImage_run, checkApiKey_run, afterKeyCheck_run.
  unfold events, outcome.
  destruct m, (aistudio h) as [studio|];
    try destruct (hasSelectedApiKey studio) as [[|]|e];
    destruct (newGoogleGenAI h) as [[]|ce];
    try match goal with
    | |- context [tryBlock ?a ?b ?c ?d] => destruct (tryBlock a b c d) as [uri|caught]
    end; cbn;
    intros Hin;
    repeat match goal with
           | H : _ \/ _ |- _ => destruct H
           | H : False |- _ => destruct H
           | H : GenerateContent _ = GenerateContent _ |- _ => injection H as <-
           end; try discriminate; reflexivity.
Qed.

Lemma react_keeps_atRestInvariant a w :
  atRestInvariant (ui w) -> atRestInvariant (ui (snd (react a w))).
Proof.
  intros [Hload [Herr Himg]]. destruct a as [value|value|value|h|h]; cbn [react].
  - exact (conj Hload (conj Herr Himg)).
  - exact (conj Hload (conj Herr Himg)).
  - exact (conj Hload (conj Herr Himg)).
  - destruct (string_dec (trim (prompt (ui w))) "") as [Hblank|Hprompt].
    + rewrite (handleGenerate_skip h w Hblank). exact (conj Hload (conj Herr Himg)).
    + rewrite (handleGenerate_run h w Hprompt). cbn [snd ui].
      destruct (outcome (generateImage h (prompt (ui w)) (model (ui w))
                           (aspectRatio (ui w)))) as [uri|err] eqn:Hout.
      * open_setters. split; [reflexivity|]. split; [discriminate|].
        cbn. intros image [= <-]. split; [|exact Hprompt].
        exact (generateImage_uri_shape _ _ _ _ Hout).
      * unfold settled.
        destruct (readMessage h err) as [text|te]; [destruct (isKeyMessage text)|];
          open_setters.
        -- split; [reflexivity|]. split; [discriminate | exact Himg].
        -- split; [reflexivity|]. split; [|exact Himg].
           cbn. intros [= Hempty]. revert Hempty. apply or_else_nonempty. discriminate.
        -- split; [reflexivity|]. split; [discriminate | exact Himg].
  - rewrite handleKeySelection_run. cbn [snd].
    destruct (aistudio h) as [studio|]; [destruct (openSelectKey studio) as [[]|e]|];
      open_setters; (split; [exact Hload|]); (split; [|exact Himg]);
      cbn; solve [exact Herr | discriminate].
Qed.

Lemma react_keeps_providerCallsInvariant a w :
  providerCallsInvariant w -> providerCallsInvariant (snd (react a w)).
Proof.
  intros Hinv. destruct a as [value|value|value|h|h]; cbn [react].
  - exact Hinv.
  - exact Hinv.
  - exact Hinv.
  - destruct (string_dec (trim (prompt (ui w))) "") as [Hblank|Hprompt].
    + now rewrite (handleGenerate_skip h w Hblank).
    + rewrite (handleGenerate_run h w Hprompt). cbn [snd].
      intros req st Hin. cbn [observed] in Hin. apply in_app_or in Hin.
      destruct Hin as [Hold|Hnew]; [now apply Hinv|].
      apply in_map_iff in Hnew. destruct Hnew as [ev [[= -> <-] Hev]].
      apply generateImage_requests in Hev. subst req.
      repeat split; exact Hprompt.
  - rewrite handleKeySelection_run. cbn [snd].
    destruct (aistudio h) as [studio|]; [destruct (openSelectKey studio) as [[]|e]|];
      cbn [observed]; intros req st Hin; try (now apply Hinv);
      apply in_app_or in Hin; destruct Hin as [Hold|Hnew]; try (now apply Hinv);
      cbn in Hnew; repeat destruct Hnew as [Hnew|Hnew]; discriminate || contradiction.
Qed.

(** X11. Whatever the user types, selects and clicks, and whatever the
    hosts answer, as long as each handler completes before the next
    action: the component is never left loading, [error] is null or a
    non-empty text, and the current image, if any, has a data URI with a
    non-empty media type and payload and was made from a non-blank
    prompt. *)
Theorem session_keeps_atRestInvariant DEFAULT_PROMPT actions :
  atRestInvariant
    (ui (session actions {| ui := initialState DEFAULT_PROMPT; observed := [] |})).
Proof.
  assert (Hgen : forall w, atRestInvariant (ui w) -> atRestInvariant (ui (session actions w))).
  { induction actions as [|a rest IH]; intros w Hw; cbn [session]; [exact Hw|].
    apply IH. now apply react_keeps_atRestInvariant. }
  apply Hgen. cbn. repeat split; discriminate.
Qed.

(** X12. Over a whole session the provider is only ever called while
    [isLoading] is true, with the request built from the prompt, the model
    and the aspect ratio then in the form, and never for a blank prompt. *)
Theorem session_keeps_providerCallsInvariant DEFAULT_PROMPT actions :
  providerCallsInvariant
    (session actions {| ui := initialState DEFAULT_PROMPT; observed := [] |}).
Proof.
  assert (Hgen : forall w, providerCallsInvariant w ->
                           providerCallsInvariant (session actions w)).
  { induction actions as [|a rest IH]; intros w Hw; cbn [session]; [exact Hw|].
    apply IH. now apply react_keeps_providerCallsInvariant. }
  apply Hgen. intros req st Hin. destruct Hin.
Qed.

(* ===================================================================== *)
(** ** The download                                                       *)
(* ===================================================================== *)

Lemma removeChild_last_appended (nodes : list Node) (link : Node) :
  Forall (fun c => (nodeId c < nodeId link)%nat) nodes ->
  filter (fun c => negb (nodeId c =? nodeId link)%nat) (nodes ++ [link]) = nodes.
Proof.
  intros Hfresh. rewrite filter_app. cbn. rewrite Nat.eqb_refl. cbn.
  rewrite app_nil_r. induction Hfresh as [|c cs Hc _ IH]; cbn; [reflexivity|].
  assert (Hneq : (nodeId c =? nodeId link)%nat = false) by (apply Nat.eqb_neq; lia).
  rewrite Hneq. cbn. now rewrite IH.
Qed.

Lemma append_cancel_right (a b s : string) : a ++ s = b ++ s -> a = b.
Proof.
  intros Heq.
  assert (Hlist : (list_ascii_of_string a ++ list_ascii_of_string s
                   = list_ascii_of_string b ++ list_ascii_of_string s)%list).
  { assert (Happ : forall x y, list_ascii_of_string (x ++ y)
                               = (list_ascii_of_string x ++ list_ascii_of_string y)%list).
    { induction x as [|c x IH]; intros y; cbn; [reflexivity | now rewrite IH]. }
    now rewrite <- !Happ, Heq. }
  apply app_inv_tail in Hlist.
  now rewrite <- (string_of_list_ascii_of_string a), Hlist, string_of_list_ascii_of_string.
Qed.

Lemma numberToString_injective (a b : Z) :
  numberToString a = numberToString b -> a = b.
Proof.
  unfold numberToString. intros Heq.
  assert (Hproper : forall z, Z.to_int z <> Pos Nil /\ Z.to_int z <> Neg Nil).
  { intros [|q|q]; cbn; split; try discriminate;
      intros [= Hnil]; now apply Unsigned.to_uint_nonnil in Hnil. }
  apply DecimalZ.to_int_inj.
  assert (Hparsed : NilZero.int_of_string (NilZero.string_of_int (Z.to_int a))
                    = NilZero.int_of_string (NilZero.string_of_int (Z.to_int b)))
    by now rewrite Heq.
  rewrite !NilZero.isi in Hparsed by apply Hproper.
  now injection Hparsed.
Qed.

(** X13. With no current image [handleDownload] does nothing.  With one,
    on a document whose nodes were all created before, it clicks exactly
    one new anchor, whose target is the image's URI and whose file name is
    hyper-render- then the timestamp in decimal then .png, and it leaves
    the children of the body exactly as they were. *)
Theorem handleDownload_clicks_one_link st d :
  Forall (fun c => (nodeId c < nextId d)%nat) (body d) ->
  match currentImage st with
  | None => handleDownload st d = d
  | Some image =>
      body (handleDownload st d) = body d
      /\ clicked (handleDownload st d) =
           (clicked d ++
              [{| nodeId := nextId d;
                  tagName := "a";
                  href := GeneratedImage.url image;
                  download :=
                    "hyper-render-"
                      ++ numberToString (GeneratedImage.timestamp image) ++ ".png" |}])%list
  end.
Proof.
  intros Hfresh. unfold handleDownload.
  destruct (currentImage st) as [image|]; [|reflexivity].
  cbn. split; [|reflexivity].
  apply (@removeChild_last_appended
           (body d)
           {| nodeId := nextId d; tagName := "a"; href := GeneratedImage.url image;
              download := "hyper-render-"
                            ++ numberToString (GeneratedImage.timestamp image)
                            ++ ".png" |}).
  exact Hfresh.
Qed.

(** X14. Two images with different timestamps are never saved under the
    same file name: on documents where nothing was clicked before, the
    anchors clicked by [handleDownload] for them differ in their download
    name. *)
Theorem handleDownload_names_differ st st' d d' image image' link link' :
  currentImage st = Some image ->
  currentImage st' = Some image' ->
  GeneratedImage.timestamp image <> GeneratedImage.timestamp image' ->
  clicked d = [] ->
  clicked d' = [] ->
  In link (clicked (handleDownload st d)) ->
  In link' (clicked (handleDownload st' d')) ->
  download link <> download link'.
Proof.
  intros Himage Himage' Hdiff Hnone Hnone' Hin Hin'.
  unfold handleDownload in Hin, Hin'. rewrite Himage in Hin. rewrite Himage' in Hin'.
  cbn in Hin, Hin'. rewrite Hnone in Hin. rewrite Hnone' in Hin'.
  destruct Hin as [<-|[]]. destruct Hin' as [<-|[]]. cbn.
  intros Hsame. apply Hdiff.
  apply numberToString_injective.
  injection Hsame as Hsame.
  repeat match type of Hsame with
         | String _ _ = String _ _ => injection Hsame as Hsame
         end.
  exact (append_cancel_right _ _ _ Hsame).
Qed.

(* ===================================================================== *)
(** ** What is on screen                                                  *)
(* ===================================================================== *)



(** X17. When the key panel is up and the key selection is rejected, both
    panels are on screen afterwards: the key panel stays and the error
    panel shows the key-selection-failed text. *)
Theorem render_after_rejected_key_selection h studio e w :
  aistudio h = Some studio ->
  openSelectKey studio = Throw e ->
  keySelectionNeeded (ui w) = true ->
  errorPanel (render (ui (snd (handleKeySelection h w))))
    = Some "Failed to select API key. Please try again."
  /\ keyPanel (render (ui (snd (handleKeySelection h w)))) <> None.
Proof.
  intros Hs Hreject Hpanel. rewrite handleKeySelection_run, Hs, Hreject.
  unfold render. open_setters. rewrite Hpanel. split; [reflexivity | discriminate].
Qed.

(* ===================================================================== *)
(** ** The further properties at concrete situations                      *)
(* ===================================================================== *)

Lemma generateImage_result_is_data_uri_witness :
  outcome (generateImage scenarioA "a red cube" FLASH SQUARE)
    = Normal "data:image/png;base64,R0lGODlh"
  /\ exists response first others c ps part blob payload,
       generateContent scenarioA (request "a red cube" FLASH SQUARE) = Normal response
       /\ candidates response = Some (first :: others)
       /\ content first = Some c
       /\ parts c = Some ps
       /\ In part ps
       /\ inlineData part = Some blob
       /\ data blob = Some payload
       /\ payload <> ""
       /\ or_else (mimeType blob) "image/png" <> ""
       /\ "data:image/png;base64,R0lGODlh"
          = "data:" ++ or_else (mimeType blob) "image/png" ++ ";base64," ++ payload.
Proof.
  split; [reflexivity|].
  apply (@generateImage_result_is_data_uri scenarioA "a red cube" FLASH SQUARE
           "data:image/png;base64,R0lGODlh").
  reflexivity.
Defined.

Lemma generateImage_oracle_rejection_witness :
  trim (prompt (ui (atRest "a red cube" PRO))) <> ""
  /\ hasSelectedApiKey oracleFails = Throw (Error "aistudio bridge unavailable")
  /\ generateImage (hostOf (Some oracleFails) (Normal (responseOf [pngPart])))
       "a red cube" PRO SQUARE
       = ([HasSelectedApiKey], Throw (Error "aistudio bridge unavailable"))
  /\ error
       (ui (snd (handleGenerate (hostOf (Some oracleFails) (Normal (responseOf [pngPart])))
                   (atRest "a red cube" PRO))))
       = Some "aistudio bridge unavailable"
  /\ hasSelectedApiKey oracleSaysInvalid = Throw (Error "API_KEY_INVALID")
  /\ keySelectionNeeded
       (ui (snd (handleGenerate
                   (hostOf (Some oracleSaysInvalid) (Normal (responseOf [pngPart])))
                   (atRest "a red cube" PRO)))) = true
  /\ hasSelectedApiKey oracleRejectsUndefined = Throw ThrownUndefined
  /\ fst (handleGenerate
            (hostOf (Some oracleRejectsUndefined) (Normal (responseOf [pngPart])))
            (atRest "a red cube" PRO))
     = Throw (TypeError "Cannot read properties of undefined (reading 'message')").
Proof.
  assert (Hprompt : trim (prompt (ui (atRest "a red cube" PRO))) <> "").
  { vm_compute. discriminate. }
  pose proof (@generateImage_oracle_rejection
                (hostOf (Some oracleFails) (Normal (responseOf [pngPart]))) oracleFails
                (Error "aistudio bridge unavailable") (atRest "a red cube" PRO)
                eq_refl eq_refl eq_refl Hprompt)
    as [Hrun [_ [Hother _]]].
  pose proof (@generateImage_oracle_rejection
                (hostOf (Some oracleSaysInvalid) (Normal (responseOf [pngPart])))
                oracleSaysInvalid (Error "API_KEY_INVALID") (atRest "a red cube" PRO)
                eq_refl eq_refl eq_refl Hprompt)
    as [_ [Hkey _]].
  pose proof (@generateImage_oracle_rejection
                (hostOf (Some oracleRejectsUndefined) (Normal (responseOf [pngPart])))
                oracleRejectsUndefined ThrownUndefined (atRest "a red cube" PRO)
                eq_refl eq_refl eq_refl Hprompt)
    as [_ [_ [_ [_ Hundefined]]]].
  specialize (Hother (Some "Error") (Some "aistudio bridge unavailable") eq_refl).
  destruct Hother as [_ [Herror _]]; try discriminate.
  split; [exact Hprompt|]. split; [reflexivity|]. split; [exact Hrun|].
  split; [exact Herror|]. split; [reflexivity|].
  split; [exact (proj1 (Hkey (or_intror eq_refl)))|]. split; [reflexivity|].
  exact (proj2 (proj2 (Hundefined eq_refl))).
Defined.


Lemma handleGenerate_ignores_stale_flags_witness :
  trim (prompt (ui (atRest "a red cube" PRO))) <> ""
  /\ error (ui (atRest "a red cube" PRO)) <> error (ui (calm "a red cube" PRO))
  /\ ui (snd (handleGenerate scenarioC (calm "a red cube" PRO)))
     = ui (snd (handleGenerate scenarioC (atRest "a red cube" PRO))).
Proof.
  assert (Hprompt : trim (prompt (ui (atRest "a red cube" PRO))) <> "").
  { vm_compute. discriminate. }
  split; [exact Hprompt|]. split; [discriminate|].
  exact (@handleGenerate_ignores_stale_flags scenarioC (atRest "a red cube" PRO)
           (calm "a red cube" PRO) Hprompt eq_refl eq_refl eq_refl eq_refl).
Defined.

Lemma handleKeySelection_without_aistudio_witness :
  aistudio scenarioA = None
  /\ handleKeySelection scenarioA (atRest "a red cube" PRO) =
       (Normal tt,
        {| ui := with_error (Some "AI Studio environment not detected.")
                   (ui (atRest "a red cube" PRO));
           observed := [] |}).
Proof.
  split; [reflexivity|].
  exact (@handleKeySelection_without_aistudio scenarioA (atRest "a red cube" PRO) eq_refl).
Defined.

Lemma key_selection_then_retry_witness :
  trim (prompt (ui (calm "a red cube" PRO))) <> ""
  /\ hasSelectedApiKey noKeySelected = Normal false
  /\ openSelectKey noKeySelected = Normal tt
  /\ outcome (generateImage scenarioE "a red cube" PRO SQUARE)
       = Normal "data:image/png;base64,iVBORw0KGgo="
  /\ keySelectionNeeded (ui (snd (handleGenerate scenarioB (calm "a red cube" PRO)))) = true
  /\ map fst
       (observed
          (snd (handleKeySelection scenarioB
                  (snd (handleGenerate scenarioB (calm "a red cube" PRO))))))
       = [HasSelectedApiKey; OpenSelectKey]
  /\ currentImage
       (ui (snd (handleGenerate scenarioE
                   (snd (handleKeySelection scenarioB
                           (snd (handleGenerate scenarioB (calm "a red cube" PRO))))))))
       = Some {| GeneratedImage.url := "data:image/png;base64,iVBORw0KGgo=";
                 GeneratedImage.prompt := "a red cube";
                 GeneratedImage.timestamp := 1700000000000;
                 GeneratedImage.model := PRO |}.
Proof.
  assert (Hprompt : trim (prompt (ui (calm "a red cube" PRO))) <> "").
  { vm_compute. discriminate. }
  pose proof (@key_selection_then_retry scenarioB noKeySelected scenarioE
                (calm "a red cube" PRO) "data:image/png;base64,iVBORw0KGgo="
                Hprompt eq_refl eq_refl eq_refl eq_refl eq_refl)
    as [Hraised [_ [Hcalls Hstored]]].
  split; [exact Hprompt|]. split; [reflexivity|]. split; [reflexivity|].
  split; [reflexivity|]. split; [exact Hraised|]. split; [exact Hcalls|].
  now rewrite Hstored.
Defined.

Lemma handleDownload_clicks_one_link_witness :
  Forall (fun c => (nodeId c < nextId sampleDocument)%nat) (body sampleDocument)
  /\ currentImage (ui (calm "a red cube" FLASH)) = Some earlierImage
  /\ body (handleDownload (ui (calm "a red cube" FLASH)) sampleDocument)
     = body sampleDocument
  /\ clicked (handleDownload (ui (calm "a red cube" FLASH)) sampleDocument)
     = [{| nodeId := 3; tagName := "a";
           href := "data:image/png;base64,AAAA";
           download := "hyper-render-1699999999000.png" |}].
Proof.
  assert (Hfresh : Forall (fun c => (nodeId c < nextId sampleDocument)%nat)
                     (body sampleDocument)).
  { repeat constructor; cbn; lia. }
  split; [exact Hfresh|]. split; [reflexivity|].
  exact (@handleDownload_clicks_one_link (ui (calm "a red cube" FLASH)) sampleDocument
           Hfresh).
Defined.

Lemma handleDownload_names_differ_witness :
  GeneratedImage.timestamp earlierImage <> GeneratedImage.timestamp laterImage
  /\ forall link link',
       In link (clicked (handleDownload (with_currentImage (Some earlierImage)
                                           (ui (calm "a red cube" FLASH)))
                           freshDocument)) ->
       In link' (clicked (handleDownload (with_currentImage (Some laterImage)
                                            (ui (calm "a red cube" FLASH)))
                            freshDocument)) ->
       download link <> download link'.
Proof.
  assert (Hdiff : GeneratedImage.timestamp earlierImage
                  <> GeneratedImage.timestamp laterImage) by discriminate.
  split; [exact Hdiff|]. intros link link'.
  exact (@handleDownload_names_differ
           (with_currentImage (Some earlierImage) (ui (calm "a red cube" FLASH)))
           (with_currentImage (Some laterImage) (ui (calm "a red cube" FLASH)))
           freshDocument freshDocument earlierImage laterImage link link'
           eq_refl eq_refl Hdiff eq_refl eq_refl).
Defined.



Lemma render_after_rejected_key_selection_witness :
  aistudio (hostOf (Some selectorFails) (Normal (responseOf []))) = Some selectorFails
  /\ openSelectKey selectorFails = Throw (Error "dialog dismissed")
  /\ keySelectionNeeded (ui (atRest "a red cube" PRO)) = true
  /\ errorPanel
       (render (ui (snd (handleKeySelection
                           (hostOf (Some selectorFails) (Normal (responseOf [])))
                           (atRest "a red cube" PRO)))))
     = Some "Failed to select API key. Please try again."
  /\ keyPanel
       (render (ui (snd (handleKeySelection
                           (hostOf (Some selectorFails) (Normal (responseOf [])))
                           (atRest "a red cube" PRO)))))
     <> None.
Proof.
  split; [reflexivity|]. split; [reflexivity|]. split; [reflexivity|].
  exact (@render_after_rejected_key_selection
           (hostOf (Some selectorFails) (Normal (responseOf []))) selectorFails
           (Error "dialog dismissed") (atRest "a red cube" PRO)
           eq_refl eq_refl eq_refl).
Defined.

(* ===================================================================== *)
(** ** Responses that have a first content but no image                   *)
(* ===================================================================== *)

Lemma inlineImage_None_iff (q : Part) :
  inlineImage q = None
  <-> (inlineData q = None
       \/ exists blob, inlineData q = Some blob
                       /\ (data blob = None \/ data blob = Some "")).
Proof.
  unfold inlineImage. destruct (inlineData q) as [blob|]; [|split; auto].
  destruct (data blob) as [payload|] eqn:Hdata.
  - destruct payload as [|c rest]; cbn.
    + split; [|reflexivity]. intros _. right. exists blob. auto.
    + split; [discriminate|].
      intros [Habs|[b [[= <-] [Habs|Habs]]]]; congruence.
  - split; [|reflexivity]. intros _. right. exists blob. auto.
Qed.

(** X18. When the provider is reached and answers with a response whose
    candidate list is absent, or whose first candidate has a content
    whose part list is absent, empty, or made of parts without inline
    data (none, or with an absent or empty payload), [generateImage] fails
    with the error No image data found in response, under the fast and
    under the high-fidelity model alike, whatever later candidates hold. *)
Theorem generateImage_fails_without_inline_data h p m ar response :
  In (GenerateContent (request p m ar)) (events (generateImage h p m ar)) ->
  generateContent h (request p m ar) = Normal response ->
  (candidates response = None
   \/ exists first others c,
        candidates response = Some (first :: others)
        /\ content first = Some c
        /\ (parts c = None
            \/ exists ps,
                 parts c = Some ps
                 /\ Forall
                      (fun q =>
                         inlineData q = None
                         \/ exists blob,
                              inlineData q = Some blob
                              /\ (data blob = None \/ data blob = Some ""))
                      ps)) ->
  outcome (generateImage h p m ar) = Throw (Error "No image data found in response").
Proof.
  intros Hcalled Hresp Hshape. apply provider_called_iff in Hcalled.
  destruct Hcalled as [Hkey Hclient].
  rewrite generateImage_outcome, Hkey, afterKeyCheck_outcome, Hclient.
  unfold tryBlock. rewrite Hresp. unfold firstCandidateParts.
  destruct Hshape as [->|[first [others [c [-> [-> [->|[ps [-> Hnone]]]]]]]]];
    try (now destruct m).
  assert (Hscan : scanParts ps = None).
  { apply scanParts_None_iff. eapply Forall_impl; [|exact Hnone].
    intros q Hq. now apply inlineImage_None_iff. }
  rewrite Hscan. now destruct m.
Qed.

Lemma generateImage_fails_without_inline_data_witness :
  In (GenerateContent (request "a red cube" PRO SQUARE))
     (events (generateImage
                (hostOf (Some keySelected)
                   (Normal (mkResponse
                              (Some [mkCandidate
                                       (Some (mkContent
                                                (Some [textPart;
                                                       mkPart (Some (mkBlob (Some "") None))])));
                                     mkCandidate (Some (mkContent (Some [pngPart])))]))))
                "a red cube" PRO SQUARE))
  /\ outcome (generateImage
                (hostOf (Some keySelected)
                   (Normal (mkResponse
                              (Some [mkCandidate
                                       (Some (mkContent
                                                (Some [textPart;
                                                       mkPart (Some (mkBlob (Some "") None))])));
                                     mkCandidate (Some (mkContent (Some [pngPart])))]))))
                "a red cube" PRO SQUARE)
     = Throw (Error "No image data found in response").
Proof.
  assert (Hcalled :
            In (GenerateContent (request "a red cube" PRO SQUARE))
              (events (generateImage
                         (hostOf (Some keySelected)
                            (Normal (mkResponse
                                       (Some [mkCandidate
                                                (Some (mkContent
                                                         (Some [textPart;
                                                                mkPart (Some (mkBlob (Some "") None))])));
                                              mkCandidate (Some (mkContent (Some [pngPart])))]))))
                         "a red cube" PRO SQUARE))).
  { vm_compute. right. left. reflexivity. }
  split; [exact Hcalled|].
  apply (generateImage_fails_without_inline_data _ _ _ _ Hcalled eq_refl).
  right. eexists _, _, _. split; [reflexivity|]. split; [reflexivity|].
  right. eexists. split; [reflexivity|].
  constructor; [now left|].
  constructor; [|constructor].
  right. eexists. split; [reflexivity|]. now right.
Defined.
